(** * crosswalk-app-tools: command-line parsing and Android project dependencies

    A shallow embedding of [src/CommandParser.js] and of the
    [AndroidProjectDeps] module (channel validation, version index fetch,
    archive lookup and archive download), together with the properties the
    specification states about them.

    JavaScript strings are modelled by [string]; an array of strings by
    [list string]; "a string or null" by [option string].  Effects (console
    output, the file system, the progress indicator, the transfer client, the
    completion callback) are threaded through a state-and-exception monad
    [M] over a [World] that holds the file system and the trace of observable
    actions. *)

From Stdlib Require Import String Ascii List NArith ZArith Lia Sorted.
From stdpp Require Import base strings list gmap.

Local Open Scope string_scope.
Local Open Scope list_scope.

(** ** Worlds, completions and the monad *)

(** Exceptions the code (or its collaborators) can raise.  The object an
    [InvalidChannelError] construction yields holds no message: see
    [AndroidProjectDeps.InvalidChannelError]. *)
Inductive exn : Type :=
| InvalidChannelErrorObject
| Error (message : string).

(** The dynamically typed values handed to completion callbacks and returned
    by [find]. *)
Inductive value : Type :=
| Null
| Bool (b : bool)
| Str (s : string)
| Arr (a : list string).

(** Observable actions, in the order the code performs them. *)
Inductive event : Type :=
| ConsoleError (message : string)
| CreateFiniteProgress (label : string)
| IndicatorUpdate (progress : N)
| IndicatorDone (message : string)
| DownloaderGet (url path : string)
| Callback (result : value) (errormsg : option string)
| ShellRm (path : option string).

Record World : Type := mkWorld {
  files : gmap string string;   (* path -> content *)
  trace : list event
}.

(** How a JavaScript statement sequence ends: normally, or with a throw. *)
Inductive completion (A : Type) : Type :=
| Normal (a : A)
| Throw (e : exn).
Arguments Normal {A} a.
Arguments Throw {A} e.

Definition M (A : Type) : Type := World -> completion A * World.

Definition M_ret {A} (a : A) : M A := fun w => (Normal a, w).

Definition M_bind {A B} (f : A -> M B) (m : M A) : M B :=
  fun w => match m w with
           | (Normal a, w') => f a w'
           | (Throw e, w') => (Throw e, w')
           end.

#[export] Instance M_mret : MRet M := @M_ret.
#[export] Instance M_mbind : MBind M := @M_bind.

Definition throw {A} (e : exn) : M A := fun w => (Throw e, w).

Definition log (e : event) : M unit :=
  fun w => (Normal tt, mkWorld (files w) (trace w ++ [e])).

Definition lift {A} (c : completion A) : M A := fun w => (c, w).

(** JavaScript truthiness of "a string, or null/undefined". *)
Definition truthy (v : option string) : bool :=
  match v with
  | Some s => negb (s =? "")
  | None => false
  end.

(** ** String primitives used by the code *)

(** [Array.prototype.indexOf] on an array of strings: index of the first
    element strictly equal to [x], or -1. *)
Fixpoint indexOf (l : list string) (x : string) : Z :=
  match l with
  | [] => (-1)%Z
  | y :: l' =>
      if y =? x then 0%Z
      else let i := indexOf l' x in
           if (i =? -1)%Z then (-1)%Z else (i + 1)%Z
  end.

(** [s.split(sep)] for a one-character separator.  The result is never
    empty: the empty string splits into one empty part. *)
Fixpoint split (sep : ascii) (s : string) : list string :=
  match s with
  | EmptyString => [EmptyString]
  | String c s' =>
      if Ascii.eqb c sep then EmptyString :: split sep s'
      else match split sep s' with
           | p :: ps => String c p :: ps
           | [] => [String c EmptyString]
           end
  end.

(** [s.match("[...]*")[0]] for a character class [cls]: a pattern that is
    one starred class, unanchored and without the global flag, always matches
    at index 0, greedily, so element 0 of the match is the longest prefix of
    [s] made of characters of the class (possibly empty). *)
Fixpoint match_star (cls : ascii -> bool) (s : string) : string :=
  match s with
  | EmptyString => EmptyString
  | String c s' => if cls c then String c (match_star cls s') else EmptyString
  end.

Definition in_range (lo hi c : ascii) : bool :=
  (N_of_ascii lo <=? N_of_ascii c)%N && (N_of_ascii c <=? N_of_ascii hi)%N.

(** The class [[A-Za-z0-9_\.]]. *)
Definition package_class (c : ascii) : bool :=
  in_range "A" "Z" c || in_range "a" "z" c || in_range "0" "9" c
  || Ascii.eqb c "_" || Ascii.eqb c ".".

(** The class [[0-9\.]]. *)
Definition version_class (c : ascii) : bool :=
  in_range "0" "9" c || Ascii.eqb c ".".

(** [s[i] == '.'], where [s[i]] is undefined out of range. *)
Definition char_is_dot (c : option ascii) : bool :=
  match c with
  | Some c => Ascii.eqb c "."
  | None => false
  end.

(** [s[s.length - 1]]: index -1 of the empty string is undefined. *)
Definition last_char (s : string) : option ascii :=
  match String.length s with
  | O => None
  | S n => String.get n s
  end.

(** ** Console *)

Module Console.

Definition error (message : string) : M unit := log (ConsoleError message).

(** The finite progress indicator: creation, [update] and [done] only
    render text. *)
Definition createFiniteProgress (label : string) : M unit :=
  log (CreateFiniteProgress label).

Definition update (progress : N) : M unit := log (IndicatorUpdate progress).

Definition done (message : string) : M unit := log (IndicatorDone message).

End Console.

(** ** CommandParser *)

Module CommandParser.

(** [this._argv[i]] once [i < this._argv.length] has been checked. *)
Definition arg (argv : list string) (i : nat) : string := nth i argv "".

Definition peekCommand (argv : list string) : M (option string) :=
  if (length argv <? 3)%nat then mret None
  else
    let command := arg argv 2 in
    if (indexOf ["version"; "-v"; "-version"; "--version"] command >? -1)%Z
    then mret (Some "version")
    else if (indexOf ["help"; "-h"; "-help"; "--help"] command >? -1)%Z
    then mret (Some "help")
    else if (indexOf ["create"; "update"; "refresh"; "build"] command >? -1)%Z
    then mret (Some command)
    else mret None.

Definition package_errormsg : string :=
  "Invalid package name, see http://developer.android.com/guide/topics/manifest/manifest-element.html#package".

Definition createGetPackage (argv : list string) : M (option string) :=
  if (length argv <? 4)%nat then mret None
  else
    let pkg := arg argv 3 in
    if negb (match_star package_class pkg =? pkg) then
      Console.error package_errormsg ;; mret None
    else if char_is_dot (String.get 0 pkg) || char_is_dot (last_char pkg) then
      Console.error package_errormsg ;;
      Console.error "Name must not start or end with '.'" ;;
      mret None
    else
      let parts := split "." pkg in
      if (length parts <? 3)%nat then
        Console.error package_errormsg ;;
        Console.error "Name needs to consist of 3+ elements" ;;
        mret None
      else mret (Some pkg).

Definition version_errormsg : string :=
  "Version must be of format ab.cd.ef.gh".

Definition updateGetVersion (argv : list string) : M (option string) :=
  if (length argv <? 4)%nat then mret None
  else
    let version := arg argv 3 in
    if negb (match_star version_class version =? version) then
      Console.error version_errormsg ;; mret None
    else
      let parts := split "." version in
      if negb (length parts =? 4)%nat then
        Console.error version_errormsg ;; mret None
      else mret (Some version).

Definition buildGetType (argv : list string) : M (option string) :=
  if (length argv <? 3)%nat then mret None
  else if (length argv <? 4)%nat then mret (Some "debug")
  else
    let type := arg argv 3 in
    if (indexOf ["debug"; "release"] type >? -1)%Z then mret (Some type)
    else mret None.

(** [x !== null ? cmd : null] *)
Definition if_not_null (x : option string) (cmd : string) : option string :=
  match x with
  | Some _ => Some cmd
  | None => None
  end.

Definition getCommand (argv : list string) : M (option string) :=
  cmd ← peekCommand argv;
  match cmd with
  | Some c =>
      if c =? "create" then
        pkg ← createGetPackage argv; mret (if_not_null pkg c)
      else if c =? "update" then
        version ← updateGetVersion argv; mret (if_not_null version c)
      else if c =? "build" then
        type ← buildGetType argv; mret (if_not_null type c)
      else if (c =? "help") || (c =? "version") then mret (Some c)
      else mret None
  | None => mret None
  end.

End CommandParser.

(** The conditions under which the two validators let their argument
    through, read off the tests of [updateGetVersion] and
    [createGetPackage]. *)
Definition version_accepted (version : string) : bool :=
  forallb version_class (list_ascii_of_string version)
  && (length (split "." version) =? 4)%nat.

Definition package_accepted (pkg : string) : bool :=
  forallb package_class (list_ascii_of_string pkg)
  && negb (char_is_dot (String.get 0 pkg) || char_is_dot (last_char pkg))
  && negb (length (split "." pkg) <? 3)%nat.

(** ** AndroidProjectDeps *)

Module AndroidProjectDeps.

Definition BASE_URL : string :=
  "https://download.01.org/crosswalk/releases/crosswalk/android/".

Definition CHANNELS : list string := ["beta"; "canary"; "stable"].

(** The collaborators the module calls.  [MkTemp], [ShellJS], [Path] and
    [FS] are third-party or platform modules; [Downloader] and
    [IndexParser] belong to the project but are not among the sources at
    hand.  All are taken as parameters:
    - [createFileSync template fs] yields the name of the temporary file
      (or null) and the file system after the attempt;
    - [transfer url path fs] is one run of the transfer client: the
      progress values it reports, the error message of its terminal
      callback (or none) and the file system it leaves;
    - [parse buffer] is [new IndexParser(buffer).parse()];
    - [join dir name] is [Path.join];
    - [ls pattern fs] is [ShellJS.ls] on a glob pattern, [pwd] is
      [ShellJS.pwd()]. *)
Record Env : Type := mkEnv {
  createFileSync : string -> gmap string string -> option string * gmap string string;
  transfer : string -> string -> gmap string string ->
             list N * option string * gmap string string;
  parse : string -> completion (list string);
  join : string -> string -> string;
  ls : string -> gmap string string -> list string;
  pwd : string
}.

(** A completion callback: any function of its two arguments that may
    read and change the file system and may throw.  The trace belongs to
    the observer: a callback cannot rewrite it. *)
Definition callback_t : Type :=
  value -> option string -> gmap string string ->
  completion unit * gmap string string.

Definition call (callback : callback_t) (result : value)
    (errormsg : option string) : M unit :=
  log (Callback result errormsg) ;;
  ((fun w =>
      let '(c, fs) := callback result errormsg (files w) in
      (c, mkWorld fs (trace w))) : M unit).

Module MkTemp.
Definition createFileSync (env : Env) (template : string) : M (option string) :=
  fun w =>
    let '(name, fs) := createFileSync env template (files w) in
    (Normal name, mkWorld fs (trace w)).
End MkTemp.

Module FS.
(** [FS.readFileSync(path, {encoding: "utf8"})] throws when the file
    does not exist. *)
Definition readFileSync (path : string) : M string :=
  fun w =>
    match files w !! path with
    | Some content => (Normal content, w)
    | None => (Throw (Error ("ENOENT: no such file or directory, open '" +:+ path +:+ "'")), w)
    end.
End FS.

Module ShellJS.
(** [ShellJS.rm(path)] removes the file; on a missing file or a path
    that is not a string it prints an error and carries on. *)
Definition rm (path : option string) : M unit :=
  fun w =>
    (Normal tt,
     mkWorld (match path with
              | Some p => delete p (files w)
              | None => files w
              end)
             (trace w ++ [ShellRm path])).

Definition ls (env : Env) (pattern : string) : M (list string) :=
  fun w => (Normal (ls env pattern (files w)), w).

Definition pwd (env : Env) : M string := mret (pwd env).
End ShellJS.

(** Runs [f] on each element in order. *)
Fixpoint for_each {A} (f : A -> M unit) (l : list A) : M unit :=
  match l with
  | [] => mret tt
  | a :: l' => f a ;; for_each f l'
  end.

Module Downloader.
(** Modelled from the spec: the Downloader (the spec's Transfer Client)
    is missing from the sources.  It "exposes a progress callback invoked
    zero or more times" and "a single terminal callback invoked exactly
    once with either no error (success) or a human-readable error
    message (failure)".  [get] starts the transfer of [url] into [path];
    the run of the operation is the request followed by the progress
    calls and the one terminal call. *)
Definition get (env : Env) (url path : string)
    (progress : N -> M unit) (finished : option string -> M unit) : M unit :=
  log (DownloaderGet url path) ;;
  ((fun w =>
      let '(reports, errormsg, fs) := transfer env url path (files w) in
      (for_each progress reports ;; finished errormsg)
        (mkWorld fs (trace w))) : M unit).
End Downloader.

(** An instance: the bound channel. *)
Record t : Type := mkDeps { _channel : string }.

(** [new InvalidChannelError(message)].  The body of the constructor is
    [Error.call(this, message)], which builds a fresh [Error] and drops it,
    leaving [this] as it was: the object that is thrown does not hold the
    message it was given. *)
Definition InvalidChannelError (message : string) : exn :=
  InvalidChannelErrorObject.

(** The constructor. *)
Definition new (channel : string) : M t :=
  if (indexOf CHANNELS channel =? -1)%Z then
    throw (InvalidChannelError ("Unknown channel " +:+ channel))
  else mret (mkDeps channel).

Definition fetchVersions (env : Env) (this : t) (callback : callback_t) : M unit :=
  let url := BASE_URL +:+ _channel this +:+ "/" in
  indexFile ← MkTemp.createFileSync env "index.html.XXXXXX";
  match indexFile with
  | Some file =>
      if truthy indexFile then
        Console.createFiniteProgress "Fetching version index " ;;
        Downloader.get env url file
          (fun progress => Console.update progress)
          (fun errormsg =>
             Console.done "" ;;
             (if truthy errormsg then
                call callback Null errormsg
              else
                buffer ← FS.readFileSync file;
                versions ← lift (parse env buffer);
                call callback (Arr versions) None) ;;
             ShellJS.rm indexFile)
      else
        call callback Null (Some "Failed to download package index.") ;;
        ShellJS.rm indexFile
  | None =>
      call callback Null (Some "Failed to download package index.") ;;
      ShellJS.rm indexFile
  end.

(** [zips[zips.length - 1]] of a non-empty array. *)
Definition last_zip (zips : list string) : value :=
  match zips !! (length zips - 1)%nat with
  | Some z => Str z
  | None => Null
  end.

Definition find (env : Env) : M value :=
  zips ← ShellJS.ls env "crosswalk-*.*.*.*.zip";
  if (length zips =? 0)%nat then
    zips ← ShellJS.ls env "../crosswalk-*.*.*.*.zip";
    if (length zips =? 0)%nat then
      cwd ← ShellJS.pwd env;
      Console.error ("Crosswalk Zip not found in current or parent directory " +:+ cwd) ;;
      mret (Bool false)
    else mret (last_zip zips)
  else mret (last_zip zips).

Definition download (env : Env) (this : t) (version dir : string)
    (callback : callback_t) : M unit :=
  let filename := "crosswalk-" +:+ version +:+ ".zip" in
  let url := BASE_URL +:+ _channel this +:+ "/" +:+ version +:+ "/" +:+ filename in
  Console.createFiniteProgress ("Downloading " +:+ version +:+ " ") ;;
  let path := join env dir filename in
  Downloader.get env url path
    (fun progress => Console.update progress)
    (fun errormsg =>
       Console.done "" ;;
       if truthy errormsg then call callback Null errormsg
       else call callback (Str filename) None).

End AndroidProjectDeps.

(** ** The specification's vocabulary *)

Module Spec.

Definition is_digit (c : ascii) : bool := in_range "0" "9" c.

(** "each segment a non-empty string of digits" *)
Definition numeric_segment (s : string) : bool :=
  negb (s =? "") && forallb is_digit (list_ascii_of_string s).

(** "exactly 4 dot-separated numeric segments" *)
Definition four_numeric_segments (version : string) : bool :=
  (length (split "." version) =? 4)%nat
  && forallb numeric_segment (split "." version).

(** "consists only of characters [A-Za-z0-9_.]" *)
Definition package_chars (pkg : string) : Prop :=
  Forall (fun c => package_class c = true) (list_ascii_of_string pkg).

Definition starts_with_dot (pkg : string) : Prop :=
  exists rest, pkg = String "." rest.

Definition ends_with_dot (pkg : string) : Prop :=
  exists front, pkg = front +:+ ".".

(** "consists only of characters [A-Za-z0-9_.], does not start or end
    with '.', and splits on '.' into 3 or more segments" *)
Definition valid_package (pkg : string) : Prop :=
  package_chars pkg /\ ~ starts_with_dot pkg /\ ~ ends_with_dot pkg
  /\ (3 <= length (split "." pkg))%nat.

(** The update rule as the specification words it, at one argument
    vector and world. *)
Definition update_rule (argv : list string) (w : World) : Prop :=
  ((CommandParser.getCommand argv w).1 = Normal (Some "update")
   <-> exists version, argv !! 3%nat = Some version
                       /\ four_numeric_segments version = true)
  /\ ((CommandParser.getCommand argv w).1 = Normal (Some "update")
      \/ (CommandParser.getCommand argv w).1 = Normal None).

(** "the temporary listing file acquired at the start is removed before
    the operation completes", at one run. *)
Definition temporary_file_removed (env : AndroidProjectDeps.Env)
    (this : AndroidProjectDeps.t) (callback : AndroidProjectDeps.callback_t)
    (w : World) : Prop :=
  forall file fs,
    AndroidProjectDeps.createFileSync env "index.html.XXXXXX" (files w)
      = (Some file, fs) ->
    files (AndroidProjectDeps.fetchVersions env this callback w).2 !! file = None.

(** The events a run adds to the trace. *)
Definition events {A} (m : M A) (w : World) : list event :=
  drop (length (trace w)) (trace (m w).2).

(** "listing URL = <base-url>/<channel>/; archive URL =
    <base-url>/<channel>/<version>/<archive-name>-<version>.zip" *)
Definition base_url : string :=
  "https://download.01.org/crosswalk/releases/crosswalk/android".

Definition archive_name : string := "crosswalk".

Definition listing_url (channel : string) : string :=
  base_url +:+ "/" +:+ channel +:+ "/".

Definition archive_file (version : string) : string :=
  archive_name +:+ "-" +:+ version +:+ ".zip".

Definition archive_url (channel version : string) : string :=
  base_url +:+ "/" +:+ channel +:+ "/" +:+ version +:+ "/"
  +:+ archive_file version.

(** The download-failure scenario as the specification words it, at one
    run: when the terminal callback of the transfer reports an error
    message, the caller gets a null filename with a non-empty message, and
    no [done] is rendered. *)
Definition failure_without_done (env : AndroidProjectDeps.Env)
    (this : AndroidProjectDeps.t) (version dir : string)
    (callback : AndroidProjectDeps.callback_t) (w : World) : Prop :=
  let run := AndroidProjectDeps.download env this version dir callback in
  forall reports message fs,
    AndroidProjectDeps.transfer env
      (archive_url (AndroidProjectDeps._channel this) version)
      (AndroidProjectDeps.join env dir (archive_file version)) (files w)
      = (reports, Some message, fs) ->
    (exists message', message' <> "" /\ Callback Null (Some message') ∈ events run w)
    /\ (forall message', IndicatorDone message' ∉ events run w).


End Spec.

(** ** Sample worlds and collaborators *)

Module Sample.

Definition empty_world : World := mkWorld ∅ [].

(** A temporary-file service that always hands out the same fresh name,
    a transfer client that reports two progress values, writes [content]
    and ends with [outcome], and a directory with two archives in the
    parent directory only. *)
Definition env (outcome : option string) (content : string)
    (parsed : completion (list string)) : AndroidProjectDeps.Env :=
  AndroidProjectDeps.mkEnv
    (fun template fs => (Some "index.html.k3J9xQ", <["index.html.k3J9xQ" := ""]> fs))
    (fun url path fs => ([25%N; 100%N], outcome, <[path := content]> fs))
    (fun buffer => parsed)
    (fun dir name => dir +:+ "/" +:+ name)
    (fun pattern fs =>
       if pattern =? "../crosswalk-*.*.*.*.zip"
       then ["../crosswalk-10.39.235.15.zip"; "../crosswalk-9.38.208.10.zip"]
       else [])
    "/home/user/app".

Definition listing : string := "<a href='9.38.208.10/'>9.38.208.10/</a>".

Definition online : AndroidProjectDeps.Env :=
  env None listing (Normal ["9.38.208.10"]).

Definition offline : AndroidProjectDeps.Env :=
  env (Some "getaddrinfo ENOTFOUND download.01.org") "" (Normal []).

(** The same collaborators when no temporary file can be had. *)
Definition no_temporary_file : AndroidProjectDeps.Env :=
  AndroidProjectDeps.mkEnv
    (fun template fs => (None, fs))
    (AndroidProjectDeps.transfer offline)
    (AndroidProjectDeps.parse offline)
    (AndroidProjectDeps.join offline)
    (AndroidProjectDeps.ls offline)
    (AndroidProjectDeps.pwd offline).

Definition stable : AndroidProjectDeps.t := AndroidProjectDeps.mkDeps "stable".

Definition quiet_callback : AndroidProjectDeps.callback_t :=
  fun result errormsg fs => (Normal tt, fs).

Definition throwing_callback : AndroidProjectDeps.callback_t :=
  fun result errormsg fs => (Throw (Error "callback failed"), fs).

End Sample.

(** ** Trace discipline *)

(** A computation only ever adds to the trace. *)
Definition appends {A} (m : M A) : Prop :=
  forall w, exists new, trace (m w).2 = trace w ++ new.

(** ** Further definitions *)



(** The command [peekCommand] reads off an argument vector. *)
Definition peeked (argv : list string) : option string :=
  match argv !! 2%nat with
  | None => None
  | Some command =>
      if (indexOf ["version"; "-v"; "-version"; "--version"] command >? -1)%Z
      then Some "version"
      else if (indexOf ["help"; "-h"; "-help"; "--help"] command >? -1)%Z
      then Some "help"
      else if (indexOf ["create"; "update"; "refresh"; "build"] command >? -1)%Z
      then Some command
      else None
  end.

(** Whether an event is a call of the completion callback. *)
Definition is_callback (e : event) : bool :=
  match e with
  | Callback _ _ => true
  | _ => false
  end.

(** A transfer client that reports success although the destination file is
    not there afterwards. *)
Definition vanishing : AndroidProjectDeps.Env :=
  AndroidProjectDeps.mkEnv
    (AndroidProjectDeps.createFileSync Sample.online)
    (fun url path fs => ([100%N], None, delete path fs))
    (AndroidProjectDeps.parse Sample.online)
    (AndroidProjectDeps.join Sample.online)
    (AndroidProjectDeps.ls Sample.online)
    (AndroidProjectDeps.pwd Sample.online).

(** A directory tree without any archive. *)
Definition no_archives : AndroidProjectDeps.Env :=
  AndroidProjectDeps.mkEnv
    (AndroidProjectDeps.createFileSync Sample.online)
    (AndroidProjectDeps.transfer Sample.online)
    (AndroidProjectDeps.parse Sample.online)
    (AndroidProjectDeps.join Sample.online)
    (fun pattern fs => [])
    (AndroidProjectDeps.pwd Sample.online).

(** ** Facts about the string primitives *)

Section StringFacts.

Variable cls : ascii -> bool.

Lemma match_star_whole (s : string) :
  match_star cls s = s <-> Forall (fun c => cls c = true) (list_ascii_of_string s).
Proof.
  induction s as [|c s IH]; simpl.
  - split; [constructor | reflexivity].
  - destruct (cls c) eqn:Hc.
    + split.
      * intros [= Hs]. constructor; [exact Hc | by apply IH].
      * intros Hall. inversion Hall; subst. f_equal. by apply IH.
    + split; [discriminate |].
      intros Hall. inversion Hall; congruence.
Qed.

Lemma match_star_eqb (s : string) :
  (match_star cls s =? s) = forallb cls (list_ascii_of_string s).
Proof.
  induction s as [|c s IH]; [reflexivity |]. simpl.
  destruct (cls c); simpl; [| reflexivity].
  by rewrite Ascii.eqb_refl.
Qed.

End StringFacts.

Lemma first_char_dot (s : string) :
  char_is_dot (String.get 0 s) = true <-> Spec.starts_with_dot s.
Proof.
  unfold Spec.starts_with_dot. destruct s as [|c s]; simpl.
  - split; [discriminate | intros [? [=]]].
  - rewrite Ascii.eqb_eq. split.
    + intros ->. by eexists.
    + by intros [? [= -> _]].
Qed.

Lemma last_char_cons (c : ascii) (s : string) :
  last_char (String c s) = match s with
                           | EmptyString => Some c
                           | String _ _ => last_char s
                           end.
Proof.
  unfold last_char. simpl. destruct s as [|d s]; reflexivity.
Qed.

Lemma last_char_dot (s : string) :
  char_is_dot (last_char s) = true <-> Spec.ends_with_dot s.
Proof.
  unfold Spec.ends_with_dot. induction s as [|c s IH].
  - split; [discriminate |]. intros [[|? ?] [=]].
  - rewrite last_char_cons. destruct s as [|d s].
    + simpl. rewrite Ascii.eqb_eq. split.
      * intros ->. by exists "".
      * intros [[|e [|? ?]] [=]]; by subst.
    + rewrite IH. split.
      * intros [front ->]. by exists (String c front).
      * intros [[|e front] [=]]; subst. by exists front.
Qed.

(** [split] is the inverse of joining with the separator, and no part
    contains the separator: it computes what [String.prototype.split]
    does. *)
Lemma split_not_nil (sep : ascii) (s : string) : split sep s <> [].
Proof.
  destruct s as [|c s]; simpl; [done |].
  destruct (Ascii.eqb c sep); [done |]. by destruct (split sep s).
Qed.

Lemma concat_split (sep : ascii) (s : string) :
  String.concat (String sep "") (split sep s) = s.
Proof.
  induction s as [|c s IH]; [reflexivity |]. simpl.
  pose proof (split_not_nil sep s) as Hne.
  destruct (Ascii.eqb c sep) eqn:Hc.
  - apply Ascii.eqb_eq in Hc as ->.
    destruct (split sep s) as [|p ps] eqn:Hs; [done |].
    simpl in *. by rewrite IH.
  - destruct (split sep s) as [|p ps] eqn:Hs; [done |].
    simpl in *. destruct ps; simpl in *; by rewrite <- IH.
Qed.

Lemma split_parts_clean (sep : ascii) (s p : string) :
  p ∈ split sep s -> sep ∉ list_ascii_of_string p.
Proof.
  revert p. induction s as [|c s IH]; intros p; simpl.
  - intros ->%list_elem_of_singleton. simpl. apply not_elem_of_nil.
  - pose proof (split_not_nil sep s) as Hne.
    destruct (Ascii.eqb c sep) eqn:Hc.
    + intros [->|Hin]%elem_of_cons; [apply not_elem_of_nil | by apply IH].
    + destruct (split sep s) as [|q qs] eqn:Hs; [done |].
      intros [->|Hin]%elem_of_cons.
      * simpl. apply not_elem_of_cons. split.
        -- intros ->. by rewrite Ascii.eqb_refl in Hc.
        -- apply IH. by left.
      * apply IH. by right.
Qed.

(** Splitting yields one part more than there are separators. *)
Lemma split_length (sep : ascii) (s : string) :
  length (split sep s)
  = S (length (filter (fun c => c = sep) (list_ascii_of_string s))).
Proof.
  induction s as [|c s IH]; [reflexivity |]. simpl.
  pose proof (split_not_nil sep s) as Hne.
  destruct (Ascii.eqb c sep) eqn:Hc.
  - apply Ascii.eqb_eq in Hc as ->. rewrite filter_cons_True by done.
    simpl. by rewrite IH.
  - apply Ascii.eqb_neq in Hc. rewrite filter_cons_False by done.
    destruct (split sep s) as [|q qs] eqn:Hs; [done |]. by rewrite <- IH.
Qed.

(** ** Running the monad *)

Lemma run_bind {A B} (f : A -> M B) (m : M A) (w : World) :
  (m ≫= f) w = match m w with
               | (Normal a, w') => f a w'
               | (Throw e, w') => (Throw e, w')
               end.
Proof. reflexivity. Qed.

Lemma run_ret {A} (a : A) (w : World) : (mret a : M A) w = (Normal a, w).
Proof. reflexivity. Qed.

(** ** CommandParser: what each function computes *)

Section CommandParserFacts.

Import CommandParser.

Variable argv : list string.

Lemma arg_lookup (i : nat) (s : string) :
  argv !! i = Some s -> (length argv <? S i)%nat = false /\ arg argv i = s.
Proof.
  intros Hi. split.
  - apply Nat.ltb_ge. apply lookup_lt_Some in Hi. lia.
  - unfold arg. by rewrite nth_lookup, Hi.
Qed.

Lemma arg_missing (i : nat) :
  argv !! i = None -> (length argv <? S i)%nat = true.
Proof. intros Hi%lookup_ge_None. apply Nat.ltb_lt. lia. Qed.

Lemma peekCommand_token (c : string) (w : World) :
  argv !! 2%nat = Some c ->
  c ∈ ["create"; "update"; "refresh"; "build"] ->
  peekCommand argv w = (Normal (Some c), w).
Proof.
  intros [Hlen Harg]%arg_lookup Hc. unfold peekCommand.
  rewrite Hlen, Harg.
  repeat (apply elem_of_cons in Hc as [-> | Hc]; [reflexivity |]).
  by apply elem_of_nil in Hc.
Qed.

Lemma updateGetVersion_result (w : World) :
  (updateGetVersion argv w).1
  = Normal (match argv !! 3%nat with
            | Some version =>
                if version_accepted version then Some version else None
            | None => None
            end).
Proof.
  unfold updateGetVersion, version_accepted.
  destruct (argv !! 3%nat) as [version|] eqn:H3.
  - apply arg_lookup in H3 as [-> ->].
    rewrite match_star_eqb.
    destruct (forallb _ _); simpl; [| reflexivity].
    destruct (length _ =? 4)%nat; reflexivity.
  - by rewrite (arg_missing _ H3).
Qed.

Lemma createGetPackage_result (w : World) :
  (createGetPackage argv w).1
  = Normal (match argv !! 3%nat with
            | Some pkg => if package_accepted pkg then Some pkg else None
            | None => None
            end).
Proof.
  unfold createGetPackage, package_accepted.
  destruct (argv !! 3%nat) as [pkg|] eqn:H3.
  - apply arg_lookup in H3 as [-> ->].
    rewrite match_star_eqb.
    destruct (forallb _ _); simpl; [| reflexivity].
    destruct (char_is_dot _ || char_is_dot _); simpl; [reflexivity |].
    destruct (length _ <? 3)%nat; reflexivity.
  - by rewrite (arg_missing _ H3).
Qed.

Lemma package_accepted_valid (pkg : string) :
  package_accepted pkg = true <-> Spec.valid_package pkg.
Proof.
  unfold package_accepted, Spec.valid_package, Spec.package_chars.
  rewrite !andb_true_iff, !negb_true_iff, orb_false_iff, Nat.ltb_ge.
  rewrite <- !not_true_iff_false, first_char_dot, last_char_dot.
  rewrite <- match_star_eqb, String.eqb_eq, match_star_whole.
  tauto.
Qed.

Lemma buildGetType_result (w : World) :
  argv !! 2%nat = Some "build" ->
  buildGetType argv w
  = (Normal (match argv !! 3%nat with
             | None => Some "debug"
             | Some type =>
                 if (indexOf ["debug"; "release"] type >? -1)%Z
                 then Some type else None
             end), w).
Proof.
  intros [H2 _]%arg_lookup. unfold buildGetType. rewrite H2.
  destruct (argv !! 3%nat) as [type|] eqn:H3.
  - apply arg_lookup in H3 as [-> ->].
    destruct (indexOf _ _ >? -1)%Z; reflexivity.
  - by rewrite (arg_missing _ H3).
Qed.

Lemma getCommand_create (w : World) :
  argv !! 2%nat = Some "create" ->
  (getCommand argv w).1
  = Normal (CommandParser.if_not_null
              (match argv !! 3%nat with
               | Some pkg => if package_accepted pkg then Some pkg else None
               | None => None
               end) "create").
Proof.
  intros H2. unfold getCommand. rewrite run_bind.
  rewrite (peekCommand_token "create" w H2) by set_solver.
  simpl. rewrite run_bind.
  pose proof (createGetPackage_result w) as Hr.
  destruct (createGetPackage argv w) as [[pkg|e] w']; simpl in *; congruence.
Qed.

Lemma getCommand_update (w : World) :
  argv !! 2%nat = Some "update" ->
  (getCommand argv w).1
  = Normal (CommandParser.if_not_null
              (match argv !! 3%nat with
               | Some version =>
                   if version_accepted version then Some version else None
               | None => None
               end) "update").
Proof.
  intros H2. unfold getCommand. rewrite run_bind.
  rewrite (peekCommand_token "update" w H2) by set_solver.
  simpl. rewrite run_bind.
  pose proof (updateGetVersion_result w) as Hr.
  destruct (updateGetVersion argv w) as [[version|e] w']; simpl in *; congruence.
Qed.

Lemma getCommand_build (w : World) :
  argv !! 2%nat = Some "build" ->
  getCommand argv w
  = (Normal (CommandParser.if_not_null
               (match argv !! 3%nat with
                | None => Some "debug"
                | Some type =>
                    if (indexOf ["debug"; "release"] type >? -1)%Z
                    then Some type else None
                end) "build"), w).
Proof.
  intros H2. unfold getCommand. rewrite run_bind.
  rewrite (peekCommand_token "build" w H2) by set_solver.
  simpl. rewrite run_bind. by rewrite buildGetType_result.
Qed.

End CommandParserFacts.

Lemma indexOf_found (l : list string) (x : string) :
  (indexOf l x >? -1)%Z = true <-> x ∈ l.
Proof.
  assert (Hge : forall l, (-1 <= indexOf l x)%Z).
  { clear l. induction l as [|y l IH]; simpl; [lia |].
    destruct (y =? x); [lia |].
    destruct (indexOf l x =? -1)%Z; lia. }
  induction l as [|y l IH]; simpl.
  - split; [discriminate | by intros ?%elem_of_nil].
  - rewrite elem_of_cons. destruct (String.eqb_spec y x) as [-> | Hne].
    + split; [by left | reflexivity].
    + specialize (Hge l).
      destruct (Z.eqb_spec (indexOf l x) (-1)) as [Hi | Hi].
      * split; [discriminate |]. intros [? | Hin]; [congruence |].
        apply IH in Hin. rewrite Hi in Hin. discriminate.
      * split.
        -- intros _. right. apply IH. apply Z.gtb_lt. lia.
        -- intros _. apply Z.gtb_lt. lia.
Qed.

Lemma indexOf_absent (l : list string) (x : string) :
  (indexOf l x =? -1)%Z = true <-> x ∉ l.
Proof.
  rewrite <- indexOf_found.
  assert (Hge : (-1 <= indexOf l x)%Z).
  { induction l as [|y l IH]; simpl; [lia |].
    destruct (y =? x); [lia |].
    destruct (indexOf l x =? -1)%Z; lia. }
  rewrite Z.eqb_eq, not_true_iff_false, Z.gtb_ltb, Z.ltb_ge. lia.
Qed.

(** ** AndroidProjectDeps: what a run does *)

Section DepsFacts.

Import AndroidProjectDeps.

Variable env : Env.
Variable callback : callback_t.

Lemma events_app {A} (m : M A) (w : World) (new : list event) :
  trace (m w).2 = trace w ++ new -> Spec.events m w = new.
Proof. unfold Spec.events. intros ->. by rewrite drop_app_length. Qed.

Lemma for_each_update (reports : list N) (w : World) :
  for_each Console.update reports w
  = (Normal tt, mkWorld (files w) (trace w ++ map IndicatorUpdate reports)).
Proof.
  revert w. induction reports as [|r reports IH]; intros w; simpl.
  - rewrite app_nil_r. by destruct w.
  - rewrite run_bind. simpl. rewrite IH. simpl. by rewrite <- app_assoc.
Qed.

Lemma call_run (result : value) (errormsg : option string) (w : World) :
  call callback result errormsg w
  = ((callback result errormsg (files w)).1,
     mkWorld (callback result errormsg (files w)).2
             (trace w ++ [Callback result errormsg])).
Proof.
  unfold call. rewrite run_bind. simpl.
  by destruct (callback result errormsg (files w)).
Qed.

Lemma get_run (url path : string) (finished : option string -> M unit)
    (w : World) (reports : list N) (errormsg : option string)
    (fs : gmap string string) :
  transfer env url path (files w) = (reports, errormsg, fs) ->
  Downloader.get env url path (fun progress => Console.update progress) finished w
  = finished errormsg
      (mkWorld fs (trace w ++ DownloaderGet url path :: map IndicatorUpdate reports)).
Proof.
  intros Ht. unfold Downloader.get. rewrite run_bind. simpl. rewrite Ht.
  rewrite run_bind, for_each_update. simpl. by rewrite <- app_assoc.
Qed.

(** Whatever precedes it, a run that ends with [ShellJS.rm] and completes
    normally has removed the file, as its last action. *)
Lemma rm_last {A} (m : M A) (path : string) (w : World) :
  ((m ;; ShellJS.rm (Some path)) w).1 = Normal tt ->
  files ((m ;; ShellJS.rm (Some path)) w).2 !! path = None
  /\ last (trace ((m ;; ShellJS.rm (Some path)) w).2) = Some (ShellRm (Some path)).
Proof.
  rewrite run_bind. destruct (m w) as [[a|e] w']; simpl; [| discriminate].
  intros _. split; [apply lookup_delete_eq | apply last_snoc].
Qed.

Lemma download_run (this : t) (version dir : string) (w : World)
    (reports : list N) (errormsg : option string) (fs : gmap string string) :
  transfer env (Spec.archive_url (_channel this) version)
    (join env dir (Spec.archive_file version)) (files w)
    = (reports, errormsg, fs) ->
  download env this version dir callback w
  = call callback
      (if truthy errormsg then Null else Str (Spec.archive_file version))
      (if truthy errormsg then errormsg else None)
      (mkWorld fs
         (trace w ++ CreateFiniteProgress ("Downloading " +:+ version +:+ " ")
            :: DownloaderGet (Spec.archive_url (_channel this) version)
                 (join env dir (Spec.archive_file version))
            :: map IndicatorUpdate reports ++ [IndicatorDone ""])).
Proof.
  intros Ht. unfold download. rewrite run_bind. simpl.
  erewrite get_run by exact Ht.
  rewrite run_bind. simpl. rewrite <- !app_assoc. simpl.
  by destruct (truthy errormsg).
Qed.

Lemma fetchVersions_run (this : t) (w : World) (file : string)
    (fs0 fs1 : gmap string string) (reports : list N) (errormsg : option string) :
  createFileSync env "index.html.XXXXXX" (files w) = (Some file, fs0) ->
  file <> "" ->
  transfer env (Spec.listing_url (_channel this)) file fs0
    = (reports, errormsg, fs1) ->
  fetchVersions env this callback w
  = (((if truthy errormsg then call callback Null errormsg
       else
         buffer ← FS.readFileSync file;
         versions ← lift (parse env buffer);
         call callback (Arr versions) None) : M unit) ;;
     ShellJS.rm (Some file))
      (mkWorld fs1
         (trace w ++ CreateFiniteProgress "Fetching version index "
            :: DownloaderGet (Spec.listing_url (_channel this)) file
            :: map IndicatorUpdate reports ++ [IndicatorDone ""])).
Proof.
  intros Hc Hfile Ht. unfold fetchVersions. rewrite run_bind.
  unfold MkTemp.createFileSync. rewrite Hc. simpl.
  apply String.eqb_neq in Hfile. rewrite Hfile. simpl.
  rewrite run_bind. simpl.
  erewrite get_run by exact Ht.
  rewrite run_bind. simpl. rewrite <- !app_assoc. reflexivity.
Qed.

(** X12. The success path: when the transfer ends without an error
    message, the temporary file is read back, its content parsed, and the
    parsed versions handed to the caller with no error message; the
    temporary file is removed once the callback has returned, and the run
    completes the way the callback does. *)
Lemma fetchVersions_success (this : t) (w : World) (file : string)
    (fs0 fs1 : gmap string string) (reports : list N) (errormsg : option string)
    (buffer : string) (versions : list string) :
  createFileSync env "index.html.XXXXXX" (files w) = (Some file, fs0) ->
  file <> "" ->
  transfer env (Spec.listing_url (_channel this)) file fs0
    = (reports, errormsg, fs1) ->
  truthy errormsg = false ->
  fs1 !! file = Some buffer ->
  parse env buffer = Normal versions ->
  (fetchVersions env this callback w).1 = (callback (Arr versions) None fs1).1
  /\ Spec.events (fetchVersions env this callback) w
     = CreateFiniteProgress "Fetching version index "
       :: DownloaderGet (Spec.listing_url (_channel this)) file
       :: map IndicatorUpdate reports
       ++ [IndicatorDone ""; Callback (Arr versions) None]
       ++ match (callback (Arr versions) None fs1).1 with
          | Normal _ => [ShellRm (Some file)]
          | Throw _ => []
          end.
Proof.
  intros Hc Hfile Ht Hfalsy Hread Hparse.
  pose proof (fetchVersions_run this w file fs0 fs1 reports errormsg
                Hc Hfile Ht) as Hrun.
  rewrite Hfalsy, !run_bind in Hrun. unfold FS.readFileSync in Hrun.
  cbn [files] in Hrun. rewrite Hread, run_bind in Hrun.
  unfold lift in Hrun. rewrite Hparse, call_run in Hrun.
  cbn [files trace] in Hrun.
  unfold Spec.events. rewrite Hrun. clear Hrun.
  destruct (callback (Arr versions) None fs1) as [[[]|e] fs2]; cbn [fst snd].
  - split; [reflexivity |]. simpl. rewrite <- !app_assoc, drop_app_length.
    simpl. by rewrite <- app_assoc.
  - split; [reflexivity |]. simpl. rewrite <- !app_assoc, drop_app_length.
    simpl. by rewrite <- app_assoc.
Qed.

(** Without a temporary file no transfer is attempted: the caller is told
    at once. *)
Lemma fetchVersions_without_file (this : t) (w : World)
    (name : option string) (fs0 : gmap string string) :
  createFileSync env "index.html.XXXXXX" (files w) = (name, fs0) ->
  truthy name = false ->
  fetchVersions env this callback w
  = (call callback Null (Some "Failed to download package index.") ;;
     ShellJS.rm name) (mkWorld fs0 (trace w)).
Proof.
  intros Hc Hfalsy. unfold fetchVersions. rewrite run_bind.
  unfold MkTemp.createFileSync. rewrite Hc. cbn iota beta.
  destruct name as [file|]; [| reflexivity]. by rewrite Hfalsy.
Qed.

Lemma fetchVersions_ends_with_rm (this : t) (w : World) (file : string)
    (fs0 : gmap string string) :
  createFileSync env "index.html.XXXXXX" (files w) = (Some file, fs0) ->
  exists (m : M unit) (w1 : World),
    fetchVersions env this callback w = (m ;; ShellJS.rm (Some file)) w1.
Proof.
  intros Hc. destruct (String.eqb_spec file "") as [-> | Hfile].
  - eexists _, _. by apply (fetchVersions_without_file this w (Some "") fs0).
  - destruct (transfer env (Spec.listing_url (_channel this)) file fs0)
      as [[reports errormsg] fs1] eqn:Ht.
    eexists _, _. by eapply fetchVersions_run.
Qed.

End DepsFacts.

(** ** Lexicographic order of a sorted listing *)


(** ** Every action appends to the trace *)

Section Appends.

Import AndroidProjectDeps.

Lemma appends_ret {A} (a : A) : appends (mret a : M A).
Proof. intros w. exists []. simpl. by rewrite app_nil_r. Qed.

Lemma appends_bind {A B} (m : M A) (f : A -> M B) :
  appends m -> (forall a, appends (f a)) -> appends (m ≫= f).
Proof.
  intros Hm Hf w. rewrite run_bind. destruct (Hm w) as [new1 H1].
  destruct (m w) as [[a|e] w1]; simpl in *.
  - destruct (Hf a w1) as [new2 H2]. exists (new1 ++ new2).
    by rewrite H2, H1, app_assoc.
  - by exists new1.
Qed.

Lemma appends_log (e : event) : appends (log e).
Proof. intros w. by exists [e]. Qed.

Lemma appends_lift {A} (c : completion A) : appends (lift c).
Proof. intros w. exists []. simpl. by rewrite app_nil_r. Qed.

Lemma appends_call (callback : callback_t) (result : value)
    (errormsg : option string) : appends (call callback result errormsg).
Proof. intros w. rewrite call_run. by eexists. Qed.

Lemma appends_readFileSync (path : string) : appends (FS.readFileSync path).
Proof.
  intros w. exists []. unfold FS.readFileSync.
  destruct (files w !! path); simpl; by rewrite app_nil_r.
Qed.

Lemma appends_rm (path : option string) : appends (ShellJS.rm path).
Proof. intros w. by eexists. Qed.

End Appends.

(** ** The claims *)

(** C10. When the command token is "refresh", [peekCommand] returns
    "refresh" but [getCommand] returns null: the token is in the list of
    recognised commands and has no case in the dispatch. *)
Theorem refresh_is_peeked_not_dispatched (argv : list string) (w : World) :
  argv !! 2%nat = Some "refresh" ->
  CommandParser.peekCommand argv w = (Normal (Some "refresh"), w)
  /\ CommandParser.getCommand argv w = (Normal None, w).
Proof.
  intros H2.
  assert (Hpeek : CommandParser.peekCommand argv w = (Normal (Some "refresh"), w)).
  { apply peekCommand_token; [exact H2 |].
    apply elem_of_cons; right. apply elem_of_cons; right.
    apply elem_of_cons; left. reflexivity. }
  split; [exact Hpeek |].
  unfold CommandParser.getCommand. rewrite run_bind, Hpeek. reflexivity.
Qed.

Lemma refresh_is_peeked_not_dispatched_witness :
  CommandParser.peekCommand ["node"; "crosswalk-app"; "refresh"] Sample.empty_world
    = (Normal (Some "refresh"), Sample.empty_world)
  /\ CommandParser.getCommand ["node"; "crosswalk-app"; "refresh"] Sample.empty_world
    = (Normal None, Sample.empty_world).
Proof.
  apply (refresh_is_peeked_not_dispatched
           ["node"; "crosswalk-app"; "refresh"] Sample.empty_world).
  reflexivity.
Defined.

(** C8. When the command token is "build": with no further argument the
    build type is "debug"; with "debug" or "release" it is that token; in
    both cases [getCommand] returns "build".  With any other token the build
    type is null and [getCommand] returns null. *)
Theorem build_type_rule (argv : list string) (w : World) :
  argv !! 2%nat = Some "build" ->
  (argv !! 3%nat = None ->
     CommandParser.buildGetType argv w = (Normal (Some "debug"), w)
     /\ CommandParser.getCommand argv w = (Normal (Some "build"), w))
  /\ (forall type, argv !! 3%nat = Some type ->
        type = "debug" \/ type = "release" ->
        CommandParser.buildGetType argv w = (Normal (Some type), w)
        /\ CommandParser.getCommand argv w = (Normal (Some "build"), w))
  /\ (forall type, argv !! 3%nat = Some type ->
        type <> "debug" -> type <> "release" ->
        CommandParser.buildGetType argv w = (Normal None, w)
        /\ CommandParser.getCommand argv w = (Normal None, w)).
Proof.
  intros H2.
  rewrite (getCommand_build argv w H2), (buildGetType_result argv w H2).
  split; [| split].
  - intros ->. split; reflexivity.
  - intros type -> Htype.
    assert (Hin : (indexOf ["debug"; "release"] type >? -1)%Z = true).
    { apply indexOf_found. destruct Htype as [-> | ->].
      - apply elem_of_cons; left; reflexivity.
      - apply elem_of_cons; right. apply elem_of_cons; left; reflexivity. }
    rewrite Hin. split; reflexivity.
  - intros type -> Hd Hr.
    assert (Hout : (indexOf ["debug"; "release"] type >? -1)%Z = false).
    { apply not_true_iff_false. rewrite indexOf_found.
      intros [-> | Hin]%elem_of_cons; [done |].
      apply elem_of_cons in Hin as [-> | Hin]; [done |].
      by apply elem_of_nil in Hin. }
    rewrite Hout. split; reflexivity.
Qed.

Lemma build_type_rule_witness :
  CommandParser.buildGetType ["node"; "crosswalk-app"; "build"] Sample.empty_world
    = (Normal (Some "debug"), Sample.empty_world)
  /\ CommandParser.buildGetType
       ["node"; "crosswalk-app"; "build"; "release"] Sample.empty_world
     = (Normal (Some "release"), Sample.empty_world)
  /\ CommandParser.getCommand
       ["node"; "crosswalk-app"; "build"; "fast"] Sample.empty_world
     = (Normal None, Sample.empty_world).
Proof.
  split; [| split].
  - destruct (build_type_rule
                ["node"; "crosswalk-app"; "build"] Sample.empty_world eq_refl)
      as (Hnone & _ & _).
    apply Hnone. reflexivity.
  - destruct (build_type_rule
                ["node"; "crosswalk-app"; "build"; "release"] Sample.empty_world
                eq_refl) as (_ & Hknown & _).
    apply (Hknown "release"); [reflexivity | right; reflexivity].
  - destruct (build_type_rule
                ["node"; "crosswalk-app"; "build"; "fast"] Sample.empty_world
                eq_refl) as (_ & _ & Hother).
    apply (Hother "fast"); [reflexivity | discriminate | discriminate].
Defined.

(** C7. When the command token is "create", [getCommand] returns "create"
    exactly when the package-id argument is present, consists only of
    characters of [A-Za-z0-9_.], neither starts nor ends with '.', and splits
    on '.' into three or more segments; otherwise it returns null. *)
Theorem create_rule (argv : list string) (w : World) :
  argv !! 2%nat = Some "create" ->
  ((CommandParser.getCommand argv w).1 = Normal (Some "create")
   <-> exists pkg, argv !! 3%nat = Some pkg /\ Spec.valid_package pkg)
  /\ ((CommandParser.getCommand argv w).1 = Normal (Some "create")
      \/ (CommandParser.getCommand argv w).1 = Normal None).
Proof.
  intros H2. rewrite (getCommand_create argv w H2).
  destruct (argv !! 3%nat) as [pkg|]; simpl.
  - destruct (package_accepted pkg) eqn:Hacc; simpl.
    + split; [| by left]. split; [| done].
      intros _. exists pkg. split; [done |]. by apply package_accepted_valid.
    + split; [| by right]. split; [discriminate |].
      intros (pkg' & [= <-] & Hvalid%package_accepted_valid). congruence.
  - split; [| by right]. split; [discriminate |]. by intros (pkg & [=] & _).
Qed.

Lemma create_rule_witness :
  (CommandParser.getCommand
     ["node"; "crosswalk-app"; "create"; "com.example.app"] Sample.empty_world).1
  = Normal (Some "create").
Proof.
  apply (create_rule
           ["node"; "crosswalk-app"; "create"; "com.example.app"]
           Sample.empty_world eq_refl).
  exists "com.example.app". split; [reflexivity |].
  apply package_accepted_valid. reflexivity.
Defined.

(** C3, as amended. When the command token is "update", [getCommand]
    returns "update" exactly when the following argument is present, consists
    only of digits and dots, and splits on '.' into exactly four segments
    (a segment may be empty); otherwise it returns null. *)
Theorem update_rule_by_class_and_count (argv : list string) (w : World) :
  argv !! 2%nat = Some "update" ->
  ((CommandParser.getCommand argv w).1 = Normal (Some "update")
   <-> exists version,
         argv !! 3%nat = Some version
         /\ Forall (fun c => version_class c = true) (list_ascii_of_string version)
         /\ length (split "." version) = 4%nat)
  /\ ((CommandParser.getCommand argv w).1 = Normal (Some "update")
      \/ (CommandParser.getCommand argv w).1 = Normal None).
Proof.
  intros H2. rewrite (getCommand_update argv w H2).
  assert (Hacc : forall version,
             version_accepted version = true
             <-> Forall (fun c => version_class c = true)
                   (list_ascii_of_string version)
                 /\ length (split "." version) = 4%nat).
  { intros version. unfold version_accepted.
    rewrite andb_true_iff, Nat.eqb_eq.
    by rewrite <- match_star_eqb, String.eqb_eq, match_star_whole. }
  destruct (argv !! 3%nat) as [version|]; simpl.
  - destruct (version_accepted version) eqn:Hv; simpl.
    + split; [| by left]. split; [| done].
      intros _. exists version. split; [done |]. by apply Hacc.
    + split; [| by right]. split; [discriminate |].
      intros (version' & [= <-] & Hok%Hacc). congruence.
  - split; [| by right]. split; [discriminate |]. by intros (? & [=] & _).
Qed.

Lemma update_rule_by_class_and_count_witness :
  (CommandParser.getCommand
     ["node"; "crosswalk-app"; "update"; "9.38.208.10"] Sample.empty_world).1
  = Normal (Some "update").
Proof.
  apply (update_rule_by_class_and_count
           ["node"; "crosswalk-app"; "update"; "9.38.208.10"]
           Sample.empty_world eq_refl).
  exists "9.38.208.10". split; [reflexivity |]. split; [| reflexivity].
  repeat constructor.
Defined.

(** C3, as stated, fails: "1..2." has three dots and only digits and dots,
    so the command resolves to "update", yet two of its four segments are
    empty. *)
Lemma update_accepts_empty_segments :
  ~ Spec.update_rule ["node"; "crosswalk-app"; "update"; "1..2."] Sample.empty_world.
Proof.
  intros [[Hversion _] _].
  destruct Hversion as (version & [= <-] & Hfour); [reflexivity |].
  discriminate Hfour.
Qed.

(** Every version the specification wording allows is accepted by the
    code: the two rules differ on empty segments only. *)
Lemma four_numeric_segments_accepted (version : string) :
  Spec.four_numeric_segments version = true -> version_accepted version = true.
Proof.
  unfold Spec.four_numeric_segments, version_accepted.
  rewrite !andb_true_iff. intros [Hlen Hseg]. split; [| exact Hlen].
  clear Hlen. rewrite <- (concat_split "." version) at 1.
  induction (split "." version) as [|p ps IH]; [reflexivity |].
  simpl in Hseg. apply andb_true_iff in Hseg as [Hp Hps].
  assert (Hpc : forallb version_class (list_ascii_of_string p) = true).
  { unfold Spec.numeric_segment in Hp. apply andb_true_iff in Hp as [_ Hp].
    clear -Hp. induction p as [|c p IHp]; [reflexivity |].
    simpl in *. apply andb_true_iff in Hp as [Hc Hp].
    unfold version_class, Spec.is_digit in *. by rewrite Hc, IHp. }
  assert (Happ : forall a b,
             forallb version_class (list_ascii_of_string (a +:+ b))
             = forallb version_class (list_ascii_of_string a)
               && forallb version_class (list_ascii_of_string b)).
  { intros a b. induction a as [|c a IHa]; [reflexivity |].
    simpl. by rewrite IHa, andb_assoc. }
  simpl. destruct ps as [|q qs]; [exact Hpc |].
  change (String.append ?a ?b) with (a +:+ b).
  rewrite !Happ, Hpc, (IH Hps). reflexivity.
Qed.

(** C5. Constructing a resolver for a channel outside {"beta", "canary",
    "stable"} throws an [InvalidChannelError] object at once, leaving the
    world untouched; for a channel of the set it succeeds and binds the
    channel. *)
Theorem channel_checked_at_construction (channel : string) (w : World) :
  (channel ∈ ["beta"; "canary"; "stable"] ->
     AndroidProjectDeps.new channel w
     = (Normal (AndroidProjectDeps.mkDeps channel), w))
  /\ (channel ∉ ["beta"; "canary"; "stable"] ->
        AndroidProjectDeps.new channel w
        = (Throw InvalidChannelErrorObject, w)).
Proof.
  unfold AndroidProjectDeps.new, AndroidProjectDeps.CHANNELS. split.
  - intros Hin.
    destruct (indexOf ["beta"; "canary"; "stable"] channel =? -1)%Z eqn:Hi;
      [| reflexivity].
    apply indexOf_absent in Hi. contradiction.
  - intros Hout%indexOf_absent. by rewrite Hout.
Qed.

Lemma channel_checked_at_construction_witness :
  AndroidProjectDeps.new "canary" Sample.empty_world
    = (Normal (AndroidProjectDeps.mkDeps "canary"), Sample.empty_world)
  /\ AndroidProjectDeps.new "nightly" Sample.empty_world
     = (Throw InvalidChannelErrorObject, Sample.empty_world).
Proof.
  split.
  - destruct (channel_checked_at_construction "canary" Sample.empty_world)
      as [Hin _].
    apply Hin. apply elem_of_cons; right. apply elem_of_cons; left. reflexivity.
  - destruct (channel_checked_at_construction "nightly" Sample.empty_world)
      as [_ Hout].
    apply Hout. apply indexOf_absent. reflexivity.
Defined.

(** Whatever the order of the listing, [find] returns its last element. *)
Lemma find_last_listed (env : AndroidProjectDeps.Env) (w : World) :
  (AndroidProjectDeps.find env w).1
  = Normal
      (match AndroidProjectDeps.ls env "crosswalk-*.*.*.*.zip" (files w),
             AndroidProjectDeps.ls env "../crosswalk-*.*.*.*.zip" (files w) with
       | x :: l, _ => AndroidProjectDeps.last_zip (x :: l)
       | [], y :: l => AndroidProjectDeps.last_zip (y :: l)
       | [], [] => Bool false
       end).
Proof.
  unfold AndroidProjectDeps.find, AndroidProjectDeps.ShellJS.ls.
  rewrite run_bind.
  destruct (AndroidProjectDeps.ls env "crosswalk-*.*.*.*.zip" (files w))
    as [|x l]; [| reflexivity].
  cbn [length Nat.eqb]. rewrite run_bind.
  destruct (AndroidProjectDeps.ls env "../crosswalk-*.*.*.*.zip" (files w))
    as [|y l]; reflexivity.
Qed.




Section Runs.

Import AndroidProjectDeps.

Variable env : Env.
Variable this : t.
Variable callback : callback_t.

(** C1, as amended. In every run of [fetchVersions] that completes without
    an exception, on the success path and on the download-failure path alike,
    the temporary listing file is removed, and removing it is the last thing
    the run does. *)
Theorem temporary_file_removed_on_normal_completion (w : World)
    (file : string) (fs : gmap string string) :
  createFileSync env "index.html.XXXXXX" (files w) = (Some file, fs) ->
  (fetchVersions env this callback w).1 = Normal tt ->
  files (fetchVersions env this callback w).2 !! file = None
  /\ last (trace (fetchVersions env this callback w).2) = Some (ShellRm (Some file)).
Proof.
  intros Hc Hnormal.
  destruct (fetchVersions_ends_with_rm env callback this w file fs Hc)
    as (m & w1 & Hrun).
  rewrite Hrun in *. by apply rm_last.
Qed.

(** C6. When the listing download fails, [fetchVersions] hands the caller
    null and a failure message through the callback, once, and then calls
    [ShellJS.rm]; it completes the way the callback does, so it throws only
    if the callback itself throws.  The download fails in two ways: the
    transfer ends with a (non-empty) error message, which is the message
    handed on; or no temporary file could be had, and the message is
    "Failed to download package index.". *)
Theorem download_failure_reported_through_callback (w : World) :
  (forall file fs0 fs1 reports message,
     createFileSync env "index.html.XXXXXX" (files w) = (Some file, fs0) ->
     file <> "" ->
     transfer env (Spec.listing_url (_channel this)) file fs0
       = (reports, Some message, fs1) ->
     message <> "" ->
     (fetchVersions env this callback w).1 = (callback Null (Some message) fs1).1
     /\ Spec.events (fetchVersions env this callback) w
        = CreateFiniteProgress "Fetching version index "
          :: DownloaderGet (Spec.listing_url (_channel this)) file
          :: map IndicatorUpdate reports
          ++ [IndicatorDone ""; Callback Null (Some message)]
          ++ match (callback Null (Some message) fs1).1 with
             | Normal _ => [ShellRm (Some file)]
             | Throw _ => []
             end)
  /\ (forall name fs0,
        createFileSync env "index.html.XXXXXX" (files w) = (name, fs0) ->
        truthy name = false ->
        (fetchVersions env this callback w).1
        = (callback Null (Some "Failed to download package index.") fs0).1
        /\ Spec.events (fetchVersions env this callback) w
           = Callback Null (Some "Failed to download package index.")
             :: match (callback Null (Some "Failed to download package index.")
                         fs0).1 with
                | Normal _ => [ShellRm name]
                | Throw _ => []
                end).
Proof.
  split.
  - intros file fs0 fs1 reports message Hc Hfile Ht Hmessage.
    assert (Htruthy : truthy (Some message) = true).
    { simpl. by apply negb_true_iff, String.eqb_neq. }
    pose proof (fetchVersions_run env callback this w file fs0 fs1 reports
                  (Some message) Hc Hfile Ht) as Hrun.
    rewrite Htruthy, run_bind, call_run in Hrun. cbn [files trace] in Hrun.
    unfold Spec.events. rewrite Hrun. clear Hrun.
    destruct (callback Null (Some message) fs1) as [[[]|e] fs2]; cbn [fst snd].
    + split; [reflexivity |]. simpl. rewrite <- !app_assoc, drop_app_length.
      simpl. by rewrite <- app_assoc.
    + split; [reflexivity |]. simpl. rewrite <- !app_assoc, drop_app_length.
      simpl. by rewrite <- app_assoc.
  - intros name fs0 Hc Hfalsy.
    pose proof (fetchVersions_without_file env callback this w name fs0
                  Hc Hfalsy) as Hrun.
    rewrite run_bind, call_run in Hrun. cbn [files trace] in Hrun.
    unfold Spec.events. rewrite Hrun. clear Hrun.
    destruct (callback Null (Some "Failed to download package index.") fs0)
      as [[[]|e] fs2]; cbn [fst snd].
    + split; [reflexivity |]. simpl. rewrite <- app_assoc.
      by rewrite drop_app_length.
    + split; [reflexivity |]. simpl. by rewrite drop_app_length.
Qed.

(** C2, as amended. When the terminal callback of the transfer reports a
    non-empty error message, [download] renders the indicator's terminal
    state with [done("")], exactly once, and then hands the caller a null
    filename together with that message; it completes the way the callback
    does. *)
Theorem download_failure_passes_message (version dir : string) (w : World)
    (reports : list N) (message : string) (fs : gmap string string) :
  transfer env (Spec.archive_url (_channel this) version)
    (join env dir (Spec.archive_file version)) (files w)
    = (reports, Some message, fs) ->
  message <> "" ->
  (download env this version dir callback w).1
  = (callback Null (Some message) fs).1
  /\ Spec.events (download env this version dir callback) w
     = CreateFiniteProgress ("Downloading " +:+ version +:+ " ")
       :: DownloaderGet (Spec.archive_url (_channel this) version)
            (join env dir (Spec.archive_file version))
       :: map IndicatorUpdate reports
       ++ [IndicatorDone ""; Callback Null (Some message)].
Proof.
  intros Ht Hmessage.
  assert (Htruthy : truthy (Some message) = true).
  { simpl. by apply negb_true_iff, String.eqb_neq. }
  pose proof (download_run env callback this version dir w reports
                (Some message) fs Ht) as Hrun.
  rewrite Htruthy, call_run in Hrun. cbn [files trace] in Hrun.
  unfold Spec.events. rewrite Hrun. cbn [fst snd trace].
  split; [reflexivity |].
  rewrite <- app_assoc, drop_app_length. simpl. by rewrite <- app_assoc.
Qed.

(** C9. [download] asks the transfer client for
    <base-url>/<channel>/<version>/<archive-name>-<version>.zip, to be
    stored at [Path.join] of the destination directory and
    <archive-name>-<version>.zip; the run is that one transfer, followed by
    [done("")] and the callback (the file name after a transfer without error
    message, null and the message otherwise), and the file system it leaves
    is the one the transfer into that file left, as the callback then leaves
    it.  Once the temporary file is acquired, [fetchVersions] asks the
    transfer client for <base-url>/<channel>/, to be stored in that file; the
    run goes on from the file system that transfer left: a transfer error is
    handed to the caller, and otherwise what is read back from the file and
    parsed is. *)
Theorem requests_follow_url_scheme (version dir : string) (w : World) :
  (exists reports reported fs result errormsg,
     transfer env (Spec.archive_url (_channel this) version)
       (join env dir (Spec.archive_file version)) (files w)
     = (reports, reported, fs)
     /\ Spec.events (download env this version dir callback) w
        = CreateFiniteProgress ("Downloading " +:+ version +:+ " ")
          :: DownloaderGet (Spec.archive_url (_channel this) version)
               (join env dir (Spec.archive_file version))
          :: map IndicatorUpdate reports
          ++ [IndicatorDone ""; Callback result errormsg]
     /\ (truthy reported = false ->
         result = Str (Spec.archive_file version) /\ errormsg = None)
     /\ (truthy reported = true -> result = Null /\ errormsg = reported)
     /\ (download env this version dir callback w).1
        = (callback result errormsg fs).1
     /\ files (download env this version dir callback w).2
        = (callback result errormsg fs).2)
  /\ (forall file fs0,
        createFileSync env "index.html.XXXXXX" (files w) = (Some file, fs0) ->
        file <> "" ->
        exists reports reported fs1 rest,
          transfer env (Spec.listing_url (_channel this)) file fs0
          = (reports, reported, fs1)
          /\ Spec.events (fetchVersions env this callback) w
             = CreateFiniteProgress "Fetching version index "
               :: DownloaderGet (Spec.listing_url (_channel this)) file
               :: map IndicatorUpdate reports ++ IndicatorDone "" :: rest
          /\ (truthy reported = true ->
              head rest = Some (Callback Null reported))
          /\ (truthy reported = false ->
              forall buffer versions,
                fs1 !! file = Some buffer ->
                parse env buffer = Normal versions ->
                head rest = Some (Callback (Arr versions) None))).
Proof.
  split.
  - destruct (transfer env (Spec.archive_url (_channel this) version)
                (join env dir (Spec.archive_file version)) (files w))
      as [[reports reported] fs] eqn:Ht.
    pose proof (download_run env callback this version dir w reports
                  reported fs Ht) as Hrun.
    rewrite call_run in Hrun. cbn [files trace] in Hrun.
    exists reports, reported, fs,
      (if truthy reported then Null else Str (Spec.archive_file version)),
      (if truthy reported then reported else None).
    unfold Spec.events. rewrite Hrun. cbn [fst snd trace files].
    split; [reflexivity |].
    split; [rewrite <- app_assoc, drop_app_length; simpl;
            by rewrite <- app_assoc |].
    split; [by intros -> |]. split; [by intros -> |]. split; reflexivity.
  - intros file fs0 Hc Hfile.
    destruct (transfer env (Spec.listing_url (_channel this)) file fs0)
      as [[reports reported] fs1] eqn:Ht.
    pose proof (fetchVersions_run env callback this w file fs0 fs1 reports
                  reported Hc Hfile Ht) as Hrun.
    exists reports, reported, fs1.
    unfold Spec.events. rewrite Hrun. clear Hrun. rewrite run_bind.
    destruct (truthy reported) eqn:Htruthy.
    + rewrite call_run. cbn [files trace].
      exists (Callback Null reported
              :: match (callback Null reported fs1).1 with
                 | Normal _ => [ShellRm (Some file)]
                 | Throw _ => []
                 end).
      split; [reflexivity |]. split; [| split; [done | discriminate]].
      destruct (callback Null reported fs1) as [[[]|e] fs2]; cbn [fst snd];
        simpl; rewrite <- !app_assoc, drop_app_length; simpl;
        by rewrite <- app_assoc.
    + rewrite run_bind. unfold FS.readFileSync. cbn [files].
      destruct (fs1 !! file) as [buffer|] eqn:Hread.
      2:{ exists []. split; [reflexivity |].
          split; [| split; [discriminate | intros _ ? ? [=]]].
          cbn [snd trace]. by rewrite drop_app_length. }
      rewrite run_bind. unfold lift.
      destruct (parse env buffer) as [versions|e] eqn:Hparse.
      2:{ exists []. split; [reflexivity |].
          split; [| split; [discriminate |]].
          - cbn [snd trace]. by rewrite drop_app_length.
          - intros _ buffer' versions' [= <-]. congruence. }
      rewrite call_run. cbn [files trace].
      exists (Callback (Arr versions) None
              :: match (callback (Arr versions) None fs1).1 with
                 | Normal _ => [ShellRm (Some file)]
                 | Throw _ => []
                 end).
      split; [reflexivity |]. split; [| split; [discriminate |]].
      * destruct (callback (Arr versions) None fs1) as [[[]|e] fs2];
          cbn [fst snd]; simpl; rewrite <- !app_assoc, drop_app_length; simpl;
          by rewrite <- app_assoc.
      * intros _ buffer' versions' [= <-] Hparse'.
        rewrite Hparse in Hparse'. by injection Hparse' as <-.
Qed.

End Runs.

Lemma temporary_file_removed_on_normal_completion_witness :
  files (AndroidProjectDeps.fetchVersions Sample.online Sample.stable
           Sample.quiet_callback Sample.empty_world).2
    !! "index.html.k3J9xQ" = None
  /\ last (trace (AndroidProjectDeps.fetchVersions Sample.online Sample.stable
                    Sample.quiet_callback Sample.empty_world).2)
     = Some (ShellRm (Some "index.html.k3J9xQ")).
Proof.
  apply (temporary_file_removed_on_normal_completion
           Sample.online Sample.stable Sample.quiet_callback Sample.empty_world
           "index.html.k3J9xQ" (<["index.html.k3J9xQ" := ""]> ∅)).
  - reflexivity.
  - vm_compute. reflexivity.
Defined.

(** The download-failure path of the same property, on the sample
    collaborators. *)
Example temporary_file_removed_when_offline :
  files (AndroidProjectDeps.fetchVersions Sample.offline Sample.stable
           Sample.quiet_callback Sample.empty_world).2
    !! "index.html.k3J9xQ" = None.
Proof. vm_compute. reflexivity. Qed.

(** C1, as stated, fails: the listing is downloaded and parsed, the
    completion callback throws, and the exception leaves the handler before
    [ShellJS.rm] is reached: the temporary file stays. *)
Lemma temporary_file_left_when_callback_throws :
  ~ Spec.temporary_file_removed Sample.online Sample.stable
      Sample.throwing_callback Sample.empty_world.
Proof.
  intros Hremoved.
  specialize (Hremoved "index.html.k3J9xQ" (<["index.html.k3J9xQ" := ""]> ∅) eq_refl).
  vm_compute in Hremoved. discriminate Hremoved.
Qed.

(** The same happens when the listing parser throws. *)
Example temporary_file_left_when_parser_throws :
  ~ Spec.temporary_file_removed
      (Sample.env None Sample.listing (Throw (Error "unexpected token")))
      Sample.stable Sample.quiet_callback Sample.empty_world.
Proof.
  intros Hremoved.
  specialize (Hremoved "index.html.k3J9xQ" (<["index.html.k3J9xQ" := ""]> ∅) eq_refl).
  vm_compute in Hremoved. discriminate Hremoved.
Qed.

Lemma download_failure_reported_through_callback_witness :
  ((AndroidProjectDeps.fetchVersions Sample.offline Sample.stable
      Sample.quiet_callback Sample.empty_world).1 = Normal tt
   /\ Spec.events (AndroidProjectDeps.fetchVersions Sample.offline Sample.stable
                     Sample.quiet_callback) Sample.empty_world
      = [CreateFiniteProgress "Fetching version index ";
         DownloaderGet
           "https://download.01.org/crosswalk/releases/crosswalk/android/stable/"
           "index.html.k3J9xQ";
         IndicatorUpdate 25; IndicatorUpdate 100; IndicatorDone "";
         Callback Null (Some "getaddrinfo ENOTFOUND download.01.org");
         ShellRm (Some "index.html.k3J9xQ")])
  /\ ((AndroidProjectDeps.fetchVersions Sample.no_temporary_file Sample.stable
         Sample.quiet_callback Sample.empty_world).1 = Normal tt
      /\ Spec.events (AndroidProjectDeps.fetchVersions Sample.no_temporary_file
                        Sample.stable Sample.quiet_callback) Sample.empty_world
         = [Callback Null (Some "Failed to download package index.");
            ShellRm None]).
Proof.
  split.
  - destruct (download_failure_reported_through_callback
                Sample.offline Sample.stable Sample.quiet_callback
                Sample.empty_world) as [Htransfer _].
    apply (Htransfer
             "index.html.k3J9xQ" (<["index.html.k3J9xQ" := ""]> ∅)
             (<["index.html.k3J9xQ" := ""]> (<["index.html.k3J9xQ" := ""]> ∅))
             [25%N; 100%N] "getaddrinfo ENOTFOUND download.01.org").
    + reflexivity.
    + discriminate.
    + reflexivity.
    + discriminate.
  - destruct (download_failure_reported_through_callback
                Sample.no_temporary_file Sample.stable Sample.quiet_callback
                Sample.empty_world) as [_ Hnofile].
    apply (Hnofile None ∅); reflexivity.
Defined.

Lemma download_failure_passes_message_witness :
  (AndroidProjectDeps.download Sample.offline Sample.stable "9.38.208.10"
     "downloads" Sample.quiet_callback Sample.empty_world).1 = Normal tt
  /\ Spec.events (AndroidProjectDeps.download Sample.offline Sample.stable
                    "9.38.208.10" "downloads" Sample.quiet_callback)
       Sample.empty_world
     = [CreateFiniteProgress "Downloading 9.38.208.10 ";
        DownloaderGet
          "https://download.01.org/crosswalk/releases/crosswalk/android/stable/9.38.208.10/crosswalk-9.38.208.10.zip"
          "downloads/crosswalk-9.38.208.10.zip";
        IndicatorUpdate 25; IndicatorUpdate 100; IndicatorDone "";
        Callback Null (Some "getaddrinfo ENOTFOUND download.01.org")].
Proof.
  apply (download_failure_passes_message
           Sample.offline Sample.stable Sample.quiet_callback
           "9.38.208.10" "downloads" Sample.empty_world
           [25%N; 100%N] "getaddrinfo ENOTFOUND download.01.org"
           (<["downloads/crosswalk-9.38.208.10.zip" := ""]> ∅)).
  - reflexivity.
  - discriminate.
Defined.

(** C2, as stated, fails: the transfer reports a failure, and [done("")]
    is rendered all the same, before the caller is told. *)
Lemma done_rendered_on_download_failure :
  ~ Spec.failure_without_done Sample.offline Sample.stable "9.38.208.10"
      "downloads" Sample.quiet_callback Sample.empty_world.
Proof.
  intros Hclaim.
  destruct (Hclaim [25%N; 100%N] "getaddrinfo ENOTFOUND download.01.org"
              (<["downloads/crosswalk-9.38.208.10.zip" := ""]> ∅) eq_refl)
    as [_ Hnone].
  apply (Hnone ""). apply list_elem_of_In. vm_compute. auto 10.
Qed.

(** An empty error message is falsy: the handler takes it for success and
    hands the caller the filename. *)
Example empty_error_message_counts_as_success :
  Spec.events (AndroidProjectDeps.download
                 (Sample.env (Some "") "" (Normal [])) Sample.stable
                 "9.38.208.10" "downloads" Sample.quiet_callback)
    Sample.empty_world
  = [CreateFiniteProgress "Downloading 9.38.208.10 ";
     DownloaderGet
       "https://download.01.org/crosswalk/releases/crosswalk/android/stable/9.38.208.10/crosswalk-9.38.208.10.zip"
       "downloads/crosswalk-9.38.208.10.zip";
     IndicatorUpdate 25; IndicatorUpdate 100; IndicatorDone "";
     Callback (Str "crosswalk-9.38.208.10.zip") None].
Proof. vm_compute. reflexivity. Qed.

Lemma requests_follow_url_scheme_witness :
  (Spec.events (AndroidProjectDeps.download Sample.no_temporary_file
                  Sample.stable "9.38.208.10" "downloads" Sample.quiet_callback)
     Sample.empty_world
   = [CreateFiniteProgress "Downloading 9.38.208.10 ";
      DownloaderGet
        "https://download.01.org/crosswalk/releases/crosswalk/android/stable/9.38.208.10/crosswalk-9.38.208.10.zip"
        "downloads/crosswalk-9.38.208.10.zip";
      IndicatorUpdate 25; IndicatorUpdate 100; IndicatorDone "";
      Callback Null (Some "getaddrinfo ENOTFOUND download.01.org")]
   /\ files (AndroidProjectDeps.download Sample.no_temporary_file
               Sample.stable "9.38.208.10" "downloads" Sample.quiet_callback
               Sample.empty_world).2
      = <["downloads/crosswalk-9.38.208.10.zip" := ""]> ∅)
  /\ (exists rest,
        Spec.events (AndroidProjectDeps.fetchVersions Sample.online
                       Sample.stable Sample.quiet_callback) Sample.empty_world
        = CreateFiniteProgress "Fetching version index "
          :: DownloaderGet
               "https://download.01.org/crosswalk/releases/crosswalk/android/stable/"
               "index.html.k3J9xQ"
          :: IndicatorUpdate 25 :: IndicatorUpdate 100 :: IndicatorDone ""
          :: rest
        /\ head rest = Some (Callback (Arr ["9.38.208.10"]) None)).
Proof.
  split.
  - destruct (requests_follow_url_scheme Sample.no_temporary_file
                Sample.stable Sample.quiet_callback "9.38.208.10" "downloads"
                Sample.empty_world)
      as [(reports & reported & fs & result & errormsg
           & Ht & Hevents & _ & Hfailed & _ & Hfiles) _].
    injection Ht as <- <- <-.
    destruct (Hfailed eq_refl) as [-> ->].
    split; [exact Hevents | exact Hfiles].
  - destruct (requests_follow_url_scheme Sample.online
                Sample.stable Sample.quiet_callback "9.38.208.10" "downloads"
                Sample.empty_world) as [_ Hfetch].
    destruct (Hfetch "index.html.k3J9xQ" (<["index.html.k3J9xQ" := ""]> ∅)
                eq_refl)
      as (reports & reported & fs1 & rest & Ht & Hevents & _ & Hparsed);
      [discriminate |].
    injection Ht as <- <- <-.
    exists rest. split; [exact Hevents |].
    apply (Hparsed eq_refl Sample.listing); [| reflexivity].
    vm_compute. reflexivity.
Defined.

(** ** Further properties of CommandParser *)

Section CommandParserMore.

Import CommandParser.

Lemma peekCommand_run (argv : list string) (w : World) :
  peekCommand argv w = (Normal (peeked argv), w).
Proof.
  unfold peekCommand, peeked.
  destruct (argv !! 2%nat) as [command|] eqn:H2.
  - apply arg_lookup in H2 as [-> ->].
    repeat match goal with |- context [if ?b then _ else _] => destruct b end;
      reflexivity.
  - by rewrite (arg_missing _ _ H2).
Qed.

Lemma peeked_range (argv : list string) (c : string) :
  peeked argv = Some c ->
  c ∈ ["version"; "help"; "create"; "update"; "refresh"; "build"].
Proof.
  unfold peeked. destruct (argv !! 2%nat) as [command|]; [| discriminate].
  destruct (indexOf _ command >? -1)%Z.
  { intros [= <-]. apply elem_of_cons; left; reflexivity. }
  destruct (indexOf _ command >? -1)%Z.
  { intros [= <-]. apply elem_of_cons; right. apply elem_of_cons; left; reflexivity. }
  destruct (indexOf _ command >? -1)%Z eqn:Hc; [| discriminate].
  intros [= <-]. apply indexOf_found in Hc.
  do 2 (apply elem_of_cons; right). exact Hc.
Qed.

Lemma createGetPackage_accepted (argv : list string) (pkg : string) (w : World) :
  argv !! 3%nat = Some pkg -> package_accepted pkg = true ->
  createGetPackage argv w = (Normal (Some pkg), w).
Proof.
  intros [Hlen Harg]%arg_lookup Hacc. unfold createGetPackage.
  rewrite Hlen, Harg. unfold package_accepted in Hacc.
  apply andb_true_iff in Hacc as [Hacc Hparts].
  apply andb_true_iff in Hacc as [Hclass Hdots].
  rewrite match_star_eqb, Hclass. cbn [negb].
  apply negb_true_iff in Hdots, Hparts. by rewrite Hdots, Hparts.
Qed.

Lemma updateGetVersion_accepted (argv : list string) (version : string) (w : World) :
  argv !! 3%nat = Some version -> version_accepted version = true ->
  updateGetVersion argv w = (Normal (Some version), w).
Proof.
  intros [Hlen Harg]%arg_lookup Hacc. unfold updateGetVersion.
  rewrite Hlen, Harg. unfold version_accepted in Hacc.
  apply andb_true_iff in Hacc as [Hclass Hparts].
  rewrite match_star_eqb, Hclass. cbn [negb]. by rewrite Hparts.
Qed.

Lemma updateGetVersion_rejected (argv : list string) (version : string) (w : World) :
  argv !! 3%nat = Some version -> version_accepted version = false ->
  updateGetVersion argv w
  = (Normal None, mkWorld (files w) (trace w ++ [ConsoleError version_errormsg])).
Proof.
  intros [Hlen Harg]%arg_lookup Hacc. unfold updateGetVersion.
  rewrite Hlen, Harg. unfold version_accepted in Hacc.
  rewrite match_star_eqb.
  destruct (forallb _ _); cbn [negb andb] in *; [| reflexivity].
  by rewrite Hacc.
Qed.

(** What [getCommand] returns, and when it leaves the world alone. *)
Lemma getCommand_cases (argv : list string) (w : World) :
  (getCommand argv w).1 = Normal None
  \/ exists c, peeked argv = Some c
               /\ c ∈ ["create"; "update"; "build"; "help"; "version"]
               /\ getCommand argv w = (Normal (Some c), w).
Proof.
  unfold getCommand. rewrite run_bind, peekCommand_run.
  destruct (peeked argv) as [c|] eqn:Hpeek; [| by left].
  destruct (String.eqb_spec c "create") as [-> | _].
  { rewrite run_bind. pose proof (createGetPackage_result argv w) as Hr.
    destruct (argv !! 3%nat) as [pkg|] eqn:H3.
    - destruct (package_accepted pkg) eqn:Hacc.
      + right. exists "create". split; [done |].
        split; [apply elem_of_cons; by left |].
        by rewrite (createGetPackage_accepted argv pkg w H3 Hacc).
      + left. destruct (createGetPackage argv w) as [[r|e] w']; simpl in *;
          by simplify_eq.
    - left. destruct (createGetPackage argv w) as [[r|e] w']; simpl in *;
        by simplify_eq. }
  destruct (String.eqb_spec c "update") as [-> | _].
  { rewrite run_bind. pose proof (updateGetVersion_result argv w) as Hr.
    destruct (argv !! 3%nat) as [version|] eqn:H3.
    - fold (version_accepted version) in Hr.
      destruct (version_accepted version) eqn:Hacc.
      + right. exists "update". split; [done |].
        split; [apply elem_of_cons; right; apply elem_of_cons; by left |].
        by rewrite (updateGetVersion_accepted argv version w H3 Hacc).
      + left. destruct (updateGetVersion argv w) as [[r|e] w']; simpl in *;
          by simplify_eq.
    - left. destruct (updateGetVersion argv w) as [[r|e] w']; simpl in *;
        by simplify_eq. }
  destruct (String.eqb_spec c "build") as [-> | _].
  { rewrite run_bind. unfold buildGetType.
    repeat match goal with |- context [if ?b then _ else _] => destruct b end;
      simpl; try (by left);
      right; exists "build"; (split; [done |]);
      (split; [do 2 (apply elem_of_cons; right); apply elem_of_cons; by left |]);
      reflexivity. }
  destruct (String.eqb_spec c "help") as [-> | _].
  { right. exists "help". split; [done |]. split; [| reflexivity].
    do 3 (apply elem_of_cons; right). apply elem_of_cons; by left. }
  destruct (String.eqb_spec c "version") as [-> | _]; [| by left].
  right. exists "version". split; [done |]. split; [| reflexivity].
  do 4 (apply elem_of_cons; right). apply elem_of_cons; by left.
Qed.

End CommandParserMore.

(** X1. [getCommand] never throws and never resolves to anything but
    "create", "update", "build", "help", "version" or null: "refresh", which
    [peekCommand] lets through, is not among its results. *)
Theorem getCommand_range (argv : list string) (w : World) :
  exists r, (CommandParser.getCommand argv w).1 = Normal r
            /\ r ∈ [None; Some "create"; Some "update"; Some "build";
                    Some "help"; Some "version"].
Proof.
  destruct (getCommand_cases argv w) as [Hnull | (c & _ & Hc & Hrun)].
  - exists None. split; [exact Hnull |]. apply elem_of_cons; by left.
  - exists (Some c). rewrite Hrun. split; [reflexivity |].
    apply elem_of_cons; right.
    repeat (apply elem_of_cons in Hc as [-> | Hc];
            [repeat first [ by apply elem_of_cons; left
                          | apply elem_of_cons; right ] |]).
    by apply elem_of_nil in Hc.
Qed.

(** X2. A command line that resolves to a command is accepted silently:
    whenever [getCommand] returns a command, nothing was printed and the
    world is as before. *)
Theorem getCommand_silent_on_success (argv : list string) (w : World)
    (c : string) :
  (CommandParser.getCommand argv w).1 = Normal (Some c) ->
  (CommandParser.getCommand argv w).2 = w.
Proof.
  intros Hc.
  destruct (getCommand_cases argv w) as [Hnull | (c' & _ & _ & Hrun)].
  - rewrite Hnull in Hc. discriminate Hc.
  - by rewrite Hrun.
Qed.

Lemma getCommand_silent_on_success_witness :
  (CommandParser.getCommand
     ["node"; "crosswalk-app"; "create"; "com.example.app"]
     Sample.empty_world).2 = Sample.empty_world.
Proof.
  apply (getCommand_silent_on_success
           ["node"; "crosswalk-app"; "create"; "com.example.app"]
           Sample.empty_world "create").
  reflexivity.
Defined.

(** X3. Whatever [getCommand] resolves to, [peekCommand] already yields:
    validation can only turn a peeked command into null, never into another
    command. *)
Theorem getCommand_refines_peekCommand (argv : list string) (w : World)
    (c : string) :
  (CommandParser.getCommand argv w).1 = Normal (Some c) ->
  CommandParser.peekCommand argv w = (Normal (Some c), w).
Proof.
  intros Hc. rewrite peekCommand_run.
  destruct (getCommand_cases argv w) as [Hnull | (c' & Hpeek & _ & Hrun)].
  - rewrite Hnull in Hc. discriminate Hc.
  - rewrite Hrun in Hc. simpl in Hc. injection Hc as <-. by rewrite Hpeek.
Qed.

Lemma getCommand_refines_peekCommand_witness :
  CommandParser.peekCommand
    ["node"; "crosswalk-app"; "update"; "9.38.208.10"] Sample.empty_world
  = (Normal (Some "update"), Sample.empty_world).
Proof.
  apply (getCommand_refines_peekCommand
           ["node"; "crosswalk-app"; "update"; "9.38.208.10"]
           Sample.empty_world "update").
  reflexivity.
Defined.

(** X4. The spellings "-v", "-version", "--version" and "version" all
    resolve to "version", and "-h", "-help", "--help" and "help" to "help",
    whatever else is on the command line, and silently. *)
Theorem option_spellings_resolve (argv : list string) (token : string)
    (w : World) :
  argv !! 2%nat = Some token ->
  (token ∈ ["version"; "-v"; "-version"; "--version"] ->
     CommandParser.getCommand argv w = (Normal (Some "version"), w))
  /\ (token ∈ ["help"; "-h"; "-help"; "--help"] ->
        CommandParser.getCommand argv w = (Normal (Some "help"), w)).
Proof.
  intros H2. unfold CommandParser.getCommand.
  rewrite run_bind, peekCommand_run. unfold peeked. rewrite H2. split.
  - intros Hin%indexOf_found. by rewrite Hin.
  - intros Hin.
    repeat (apply elem_of_cons in Hin as [-> | Hin]; [reflexivity |]).
    by apply elem_of_nil in Hin.
Qed.

Lemma option_spellings_resolve_witness :
  CommandParser.getCommand ["node"; "crosswalk-app"; "--version"; "x"]
    Sample.empty_world = (Normal (Some "version"), Sample.empty_world)
  /\ CommandParser.getCommand ["node"; "crosswalk-app"; "-h"]
       Sample.empty_world = (Normal (Some "help"), Sample.empty_world).
Proof.
  split.
  - destruct (option_spellings_resolve
                ["node"; "crosswalk-app"; "--version"; "x"] "--version"
                Sample.empty_world eq_refl) as [Hversion _].
    apply Hversion. apply indexOf_found. reflexivity.
  - destruct (option_spellings_resolve
                ["node"; "crosswalk-app"; "-h"] "-h"
                Sample.empty_world eq_refl) as [_ Hhelp].
    apply Hhelp. apply indexOf_found. reflexivity.
Defined.

(** X5. A missing argument is rejected without a word: with nothing after
    the command token, [createGetPackage] and [updateGetVersion] return null
    and print no diagnostic, and "create" and "update" resolve to null. *)
Theorem missing_argument_is_silent (argv : list string) (w : World) :
  argv !! 3%nat = None ->
  CommandParser.createGetPackage argv w = (Normal None, w)
  /\ CommandParser.updateGetVersion argv w = (Normal None, w)
  /\ (forall c, argv !! 2%nat = Some c -> c = "create" \/ c = "update" ->
        CommandParser.getCommand argv w = (Normal None, w)).
Proof.
  intros H3. pose proof (arg_missing argv 3 H3) as Hlen.
  assert (Hcreate : CommandParser.createGetPackage argv w = (Normal None, w)).
  { unfold CommandParser.createGetPackage. by rewrite Hlen. }
  assert (Hupdate : CommandParser.updateGetVersion argv w = (Normal None, w)).
  { unfold CommandParser.updateGetVersion. by rewrite Hlen. }
  split; [exact Hcreate |]. split; [exact Hupdate |].
  intros c H2 Hc.
  assert (Hpeek : peeked argv = Some c).
  { unfold peeked. rewrite H2. by destruct Hc as [-> | ->]. }
  unfold CommandParser.getCommand. rewrite run_bind, peekCommand_run, Hpeek.
  destruct Hc as [-> | ->]; cbn -[CommandParser.createGetPackage
                                    CommandParser.updateGetVersion];
    rewrite run_bind.
  - by rewrite Hcreate.
  - by rewrite Hupdate.
Qed.

Lemma missing_argument_is_silent_witness :
  CommandParser.getCommand ["node"; "crosswalk-app"; "create"] Sample.empty_world
  = (Normal None, Sample.empty_world).
Proof.
  destruct (missing_argument_is_silent
              ["node"; "crosswalk-app"; "create"] Sample.empty_world eq_refl)
    as (_ & _ & Hcommand).
  apply (Hcommand "create"); [reflexivity | left; reflexivity].
Defined.

(** X6. Only the command token and the argument after it count: the first
    two elements of the argument vector and everything after the fourth are
    ignored by [getCommand]. *)
Theorem getCommand_reads_two_arguments (w : World) :
  (forall argv, CommandParser.getCommand (take 4 argv) w
                = CommandParser.getCommand argv w)
  /\ (forall a b a' b' rest,
        CommandParser.getCommand (a :: b :: rest) w
        = CommandParser.getCommand (a' :: b' :: rest) w).
Proof.
  split.
  - intros argv.
    destruct argv as [|a [|b [|c [|d extra]]]]; reflexivity.
  - intros a b a' b' rest.
    destruct rest as [|c [|d extra]]; reflexivity.
Qed.

Lemma events_log_only {A} (m : M A) (w : World) (a : completion A)
    (new : list event) :
  m w = (a, mkWorld (files w) (trace w ++ new)) -> Spec.events m w = new.
Proof. intros Hm. apply events_app. by rewrite Hm. Qed.

(** X7. [createGetPackage] tells the user why a package name is refused,
    testing in a fixed order: a character outside [A-Za-z0-9_.] gets the
    general message alone; otherwise a leading or trailing '.' gets the
    general message and "Name must not start or end with '.'"; otherwise
    fewer than three segments gets the general message and "Name needs to
    consist of 3+ elements".  A valid name is returned unchanged and nothing
    is printed. *)
Theorem createGetPackage_diagnostics (argv : list string) (pkg : string)
    (w : World) :
  argv !! 3%nat = Some pkg ->
  let run := CommandParser.createGetPackage argv in
  let general := ConsoleError CommandParser.package_errormsg in
  (~ Spec.package_chars pkg ->
     (run w).1 = Normal None /\ Spec.events run w = [general])
  /\ (Spec.package_chars pkg ->
        Spec.starts_with_dot pkg \/ Spec.ends_with_dot pkg ->
        (run w).1 = Normal None
        /\ Spec.events run w
           = [general; ConsoleError "Name must not start or end with '.'"])
  /\ (Spec.package_chars pkg ->
        ~ Spec.starts_with_dot pkg -> ~ Spec.ends_with_dot pkg ->
        (length (split "." pkg) < 3)%nat ->
        (run w).1 = Normal None
        /\ Spec.events run w
           = [general; ConsoleError "Name needs to consist of 3+ elements"])
  /\ (Spec.valid_package pkg -> run w = (Normal (Some pkg), w)).
Proof.
  intros H3 run general. subst run general.
  pose proof H3 as [Hlen Harg]%arg_lookup.
  assert (Hclass : forallb package_class (list_ascii_of_string pkg) = true
                   <-> Spec.package_chars pkg).
  { rewrite <- match_star_eqb, String.eqb_eq. apply match_star_whole. }
  assert (Hdots : char_is_dot (String.get 0 pkg) || char_is_dot (last_char pkg)
                  = true
                  <-> Spec.starts_with_dot pkg \/ Spec.ends_with_dot pkg).
  { by rewrite orb_true_iff, first_char_dot, last_char_dot. }
  split; [| split; [| split]].
  - intros Hbad.
    assert (Hrun : CommandParser.createGetPackage argv w
                   = (Normal None,
                      mkWorld (files w)
                        (trace w ++ [ConsoleError CommandParser.package_errormsg]))).
    { unfold CommandParser.createGetPackage. rewrite Hlen, Harg, match_star_eqb.
      destruct (forallb _ _); [by destruct Hbad; apply Hclass | reflexivity]. }
    split; [by rewrite Hrun | by eapply events_log_only].
  - intros Hgood Hdot.
    assert (Hrun : CommandParser.createGetPackage argv w
                   = (Normal None,
                      mkWorld (files w)
                        (trace w
                         ++ [ConsoleError CommandParser.package_errormsg;
                             ConsoleError "Name must not start or end with '.'"]))).
    { unfold CommandParser.createGetPackage. rewrite Hlen, Harg, match_star_eqb.
      apply Hclass in Hgood. apply Hdots in Hdot. rewrite Hgood, Hdot.
      cbn [negb]. repeat (rewrite run_bind; simpl). by rewrite <- app_assoc. }
    split; [by rewrite Hrun | by eapply events_log_only].
  - intros Hgood Hstart Hend Hfew.
    assert (Hrun : CommandParser.createGetPackage argv w
                   = (Normal None,
                      mkWorld (files w)
                        (trace w
                         ++ [ConsoleError CommandParser.package_errormsg;
                             ConsoleError "Name needs to consist of 3+ elements"]))).
    { unfold CommandParser.createGetPackage. rewrite Hlen, Harg, match_star_eqb.
      apply Hclass in Hgood. rewrite Hgood. cbn [negb].
      assert (Hdot : char_is_dot (String.get 0 pkg)
                     || char_is_dot (last_char pkg) = false).
      { apply not_true_iff_false. rewrite Hdots. tauto. }
      rewrite Hdot.
      apply Nat.ltb_lt in Hfew. rewrite Hfew.
      repeat (rewrite run_bind; simpl). by rewrite <- app_assoc. }
    split; [by rewrite Hrun | by eapply events_log_only].
  - intros Hvalid%package_accepted_valid.
    by apply createGetPackage_accepted.
Qed.

Lemma createGetPackage_diagnostics_witness :
  (CommandParser.createGetPackage
     ["node"; "crosswalk-app"; "create"; ".com.example"] Sample.empty_world).1
  = Normal None
  /\ Spec.events
       (CommandParser.createGetPackage
          ["node"; "crosswalk-app"; "create"; ".com.example"])
       Sample.empty_world
     = [ConsoleError CommandParser.package_errormsg;
        ConsoleError "Name must not start or end with '.'"].
Proof.
  destruct (createGetPackage_diagnostics
              ["node"; "crosswalk-app"; "create"; ".com.example"]
              ".com.example" Sample.empty_world eq_refl)
    as (_ & Hdot & _ & _).
  apply Hdot.
  - apply match_star_whole. reflexivity.
  - left. by exists "com.example".
Defined.

(** X8. [updateGetVersion] returns its argument unchanged, silently, exactly
    when it is made of digits and dots and holds exactly three dots; any
    other argument gets null and one "Version must be of format ab.cd.ef.gh"
    on the console. *)
Theorem updateGetVersion_three_dots (argv : list string) (version : string)
    (w : World) :
  argv !! 3%nat = Some version ->
  let run := CommandParser.updateGetVersion argv in
  let well_formed :=
    Forall (fun c => version_class c = true) (list_ascii_of_string version)
    /\ length (filter (fun c => c = "."%char) (list_ascii_of_string version))
       = 3%nat in
  (well_formed -> run w = (Normal (Some version), w))
  /\ (~ well_formed ->
        (run w).1 = Normal None
        /\ Spec.events run w = [ConsoleError CommandParser.version_errormsg]).
Proof.
  intros H3 run well_formed. subst run well_formed.
  assert (Hacc : version_accepted version = true
                 <-> Forall (fun c => version_class c = true)
                       (list_ascii_of_string version)
                     /\ length (filter (fun c => c = "."%char)
                                  (list_ascii_of_string version)) = 3%nat).
  { unfold version_accepted.
    rewrite andb_true_iff, Nat.eqb_eq, split_length.
    rewrite <- match_star_eqb, String.eqb_eq, match_star_whole.
    split; intros [Hclass Hcount]; (split; [exact Hclass | lia]). }
  split.
  - intros Hok%Hacc. by apply updateGetVersion_accepted.
  - intros Hbad.
    assert (Hrej : version_accepted version = false).
    { apply not_true_iff_false. by rewrite Hacc. }
    pose proof (updateGetVersion_rejected argv version w H3 Hrej) as Hrun.
    split; [by rewrite Hrun | by eapply events_log_only].
Qed.

Lemma updateGetVersion_three_dots_witness :
  CommandParser.updateGetVersion
    ["node"; "crosswalk-app"; "update"; "9.38.208.10"] Sample.empty_world
  = (Normal (Some "9.38.208.10"), Sample.empty_world).
Proof.
  destruct (updateGetVersion_three_dots
              ["node"; "crosswalk-app"; "update"; "9.38.208.10"]
              "9.38.208.10" Sample.empty_world eq_refl) as [Hok _].
  apply Hok. split; [| reflexivity]. repeat constructor.
Defined.

(** X9. [buildGetType] does not look at the command token: on any argument
    vector of three or more elements it answers from the fourth element
    alone ("debug" when there is none), it prints nothing, and it never
    yields anything but "debug", "release" or null. *)
Theorem buildGetType_ignores_command (argv : list string) (w : World) :
  (forall token, (3 <= length argv)%nat ->
     CommandParser.buildGetType (<[2%nat := token]> argv) w
     = CommandParser.buildGetType argv w)
  /\ exists r, CommandParser.buildGetType argv w = (Normal r, w)
               /\ r ∈ [None; Some "debug"; Some "release"].
Proof.
  split.
  - intros token Hlen.
    destruct argv as [|a [|b [|c [|d rest]]]]; simpl in Hlen; try lia;
      reflexivity.
  - unfold CommandParser.buildGetType.
    destruct (length argv <? 3)%nat.
    { eexists. split; [reflexivity |]. apply elem_of_cons; by left. }
    destruct (length argv <? 4)%nat.
    { eexists. split; [reflexivity |].
      apply elem_of_cons; right. apply elem_of_cons; by left. }
    destruct (indexOf _ _ >? -1)%Z eqn:Hin.
    + eexists. split; [reflexivity |]. apply indexOf_found in Hin.
      apply elem_of_cons; right.
      apply elem_of_cons in Hin as [-> | Hin]; [apply elem_of_cons; by left |].
      apply elem_of_cons in Hin as [-> | Hin];
        [apply elem_of_cons; right; apply elem_of_cons; by left |].
      by apply elem_of_nil in Hin.
    + eexists. split; [reflexivity |]. apply elem_of_cons; by left.
Qed.

(** ** Further properties of AndroidProjectDeps *)

Section DepsMore.

Import AndroidProjectDeps.

Variable env : Env.
Variable this : t.
Variable callback : callback_t.

(** X10. When the transfer ends without an error message, [download] hands
    the caller the bare file name "crosswalk-<version>.zip" (not the path
    inside the destination directory) and no error message, after rendering
    [done("")]; it completes the way the callback does. *)
Theorem download_success_passes_filename (version dir : string) (w : World)
    (reports : list N) (errormsg : option string) (fs : gmap string string) :
  transfer env (BASE_URL +:+ _channel this +:+ "/" +:+ version +:+ "/"
                +:+ "crosswalk-" +:+ version +:+ ".zip")
    (join env dir ("crosswalk-" +:+ version +:+ ".zip")) (files w)
    = (reports, errormsg, fs) ->
  truthy errormsg = false ->
  let filename := "crosswalk-" +:+ version +:+ ".zip" in
  (download env this version dir callback w).1
  = (callback (Str filename) None fs).1
  /\ files (download env this version dir callback w).2
     = (callback (Str filename) None fs).2
  /\ Spec.events (download env this version dir callback) w
     = CreateFiniteProgress ("Downloading " +:+ version +:+ " ")
       :: DownloaderGet
            (BASE_URL +:+ _channel this +:+ "/" +:+ version +:+ "/"
             +:+ "crosswalk-" +:+ version +:+ ".zip")
            (join env dir filename)
       :: map IndicatorUpdate reports
       ++ [IndicatorDone ""; Callback (Str filename) None].
Proof.
  intros Ht Hfalsy filename. subst filename.
  pose proof (download_run env callback this version dir w reports
                errormsg fs Ht) as Hrun.
  rewrite Hfalsy, call_run in Hrun. cbn [files trace] in Hrun.
  unfold Spec.events. rewrite Hrun. cbn [fst snd trace files].
  split; [reflexivity |]. split; [reflexivity |].
  rewrite <- app_assoc, drop_app_length. simpl. by rewrite <- app_assoc.
Qed.

Lemma filter_updates (reports : list N) :
  List.filter is_callback (map IndicatorUpdate reports) = [].
Proof. induction reports as [|r reports IH]; [reflexivity | exact IH]. Qed.

Lemma truthy_message (errormsg : option string) :
  truthy errormsg = true -> exists m, errormsg = Some m /\ m <> "".
Proof.
  destruct errormsg as [m|]; [| discriminate]. simpl.
  intros Hm%negb_true_iff%String.eqb_neq. by exists m.
Qed.

(** X11. In every run of [download] the callback is called exactly once,
    as the last action, with either the file name and no error message or
    null and a non-empty error message, never both and never neither;
    [done("")] is rendered exactly once, just before; and [download] itself
    neither writes nor removes a file: the file system is what the transfer
    and then the callback leave. *)
Theorem download_calls_back_once (version dir : string) (w : World) :
  exists reports reported fs result errormsg,
    transfer env (BASE_URL +:+ _channel this +:+ "/" +:+ version +:+ "/"
                  +:+ "crosswalk-" +:+ version +:+ ".zip")
      (join env dir ("crosswalk-" +:+ version +:+ ".zip")) (files w)
    = (reports, reported, fs)
    /\ Spec.events (download env this version dir callback) w
       = CreateFiniteProgress ("Downloading " +:+ version +:+ " ")
         :: DownloaderGet
              (BASE_URL +:+ _channel this +:+ "/" +:+ version +:+ "/"
               +:+ "crosswalk-" +:+ version +:+ ".zip")
              (join env dir ("crosswalk-" +:+ version +:+ ".zip"))
         :: map IndicatorUpdate reports
         ++ [IndicatorDone ""; Callback result errormsg]
    /\ ((result = Str ("crosswalk-" +:+ version +:+ ".zip") /\ errormsg = None)
        \/ (result = Null /\ exists m, errormsg = Some m /\ m <> ""))
    /\ (download env this version dir callback w).1
       = (callback result errormsg fs).1
    /\ files (download env this version dir callback w).2
       = (callback result errormsg fs).2.
Proof.
  destruct (transfer env (Spec.archive_url (_channel this) version)
              (join env dir (Spec.archive_file version)) (files w))
    as [[reports reported] fs] eqn:Ht.
  pose proof (download_run env callback this version dir w reports
                reported fs Ht) as Hrun.
  rewrite call_run in Hrun. cbn [files trace] in Hrun.
  exists reports, reported, fs,
    (if truthy reported then Null else Str (Spec.archive_file version)),
    (if truthy reported then reported else None).
  unfold Spec.events. rewrite Hrun. cbn [fst snd trace files].
  split; [exact Ht |]. split; [| split; [| split; reflexivity]].
  - rewrite <- app_assoc, drop_app_length. simpl. by rewrite <- app_assoc.
  - destruct (truthy reported) eqn:Htruthy.
    + right. split; [reflexivity |]. by apply truthy_message.
    + left. split; reflexivity.
Qed.

(** X13. When the transfer reports success but the temporary file is not
    there to be read back, [fetchVersions] throws the read error after
    [done("")]: the callback is never called and [ShellJS.rm] is not
    reached. *)
Theorem fetchVersions_unreadable_listing (w : World) (file : string)
    (fs0 fs1 : gmap string string) (reports : list N) (errormsg : option string) :
  createFileSync env "index.html.XXXXXX" (files w) = (Some file, fs0) ->
  file <> "" ->
  transfer env (BASE_URL +:+ _channel this +:+ "/") file fs0
    = (reports, errormsg, fs1) ->
  truthy errormsg = false ->
  fs1 !! file = None ->
  (fetchVersions env this callback w).1
  = Throw (Error ("ENOENT: no such file or directory, open '" +:+ file +:+ "'"))
  /\ Spec.events (fetchVersions env this callback) w
     = CreateFiniteProgress "Fetching version index "
       :: DownloaderGet (BASE_URL +:+ _channel this +:+ "/") file
       :: map IndicatorUpdate reports ++ [IndicatorDone ""].
Proof.
  intros Hc Hfile Ht Hfalsy Hread.
  pose proof (fetchVersions_run env callback this w file fs0 fs1 reports
                errormsg Hc Hfile Ht) as Hrun.
  rewrite Hfalsy, !run_bind in Hrun. unfold FS.readFileSync in Hrun.
  cbn [files] in Hrun. rewrite Hread in Hrun.
  unfold Spec.events. rewrite Hrun. cbn [fst snd trace].
  split; [reflexivity |]. by rewrite drop_app_length.
Qed.

(** X14. When the listing parser throws, [fetchVersions] throws the same
    exception: the callback is never called, [ShellJS.rm] is not reached and
    the temporary file stays, with the downloaded listing in it. *)
Theorem fetchVersions_parser_throws (w : World) (file : string)
    (fs0 fs1 : gmap string string) (reports : list N) (errormsg : option string)
    (buffer : string) (e : exn) :
  createFileSync env "index.html.XXXXXX" (files w) = (Some file, fs0) ->
  file <> "" ->
  transfer env (BASE_URL +:+ _channel this +:+ "/") file fs0
    = (reports, errormsg, fs1) ->
  truthy errormsg = false ->
  fs1 !! file = Some buffer ->
  parse env buffer = Throw e ->
  (fetchVersions env this callback w).1 = Throw e
  /\ files (fetchVersions env this callback w).2 !! file = Some buffer
  /\ Spec.events (fetchVersions env this callback) w
     = CreateFiniteProgress "Fetching version index "
       :: DownloaderGet (BASE_URL +:+ _channel this +:+ "/") file
       :: map IndicatorUpdate reports ++ [IndicatorDone ""].
Proof.
  intros Hc Hfile Ht Hfalsy Hread Hparse.
  pose proof (fetchVersions_run env callback this w file fs0 fs1 reports
                errormsg Hc Hfile Ht) as Hrun.
  rewrite Hfalsy, !run_bind in Hrun. unfold FS.readFileSync in Hrun.
  cbn [files] in Hrun. rewrite Hread, run_bind in Hrun.
  unfold lift in Hrun. rewrite Hparse in Hrun.
  unfold Spec.events. rewrite Hrun. cbn [fst snd trace files].
  split; [reflexivity |]. split; [exact Hread |]. by rewrite drop_app_length.
Qed.

(** Every run of [fetchVersions] is a stretch of indicator and transfer
    events followed by at most one call of the callback, itself followed by
    at most one [ShellJS.rm]. *)
Ltac trace_eq :=
  simpl; rewrite <- ?app_assoc; simpl; rewrite ?drop_app_length;
  simpl; rewrite <- ?app_assoc; simpl; rewrite ?app_nil_r; reflexivity.

Lemma fetchVersions_shape (w : World) :
  exists before after,
    Spec.events (fetchVersions env this callback) w = before ++ after
    /\ List.filter is_callback before = []
    /\ (after = []
        \/ exists result errormsg path,
             ((exists versions, result = Arr versions /\ errormsg = None)
              \/ (result = Null /\ exists m, errormsg = Some m /\ m <> ""))
             /\ (after = [Callback result errormsg]
                 \/ after = [Callback result errormsg; ShellRm path])).
Proof.
  destruct (createFileSync env "index.html.XXXXXX" (files w))
    as [name fs0] eqn:Hc.
  destruct (truthy name) eqn:Hname.
  - destruct (truthy_message name Hname) as (file & -> & Hfile).
    destruct (transfer env (Spec.listing_url (_channel this)) file fs0)
      as [[reports errormsg] fs1] eqn:Ht.
    pose proof (fetchVersions_run env callback this w file fs0 fs1 reports
                  errormsg Hc Hfile Ht) as Hrun.
    exists (CreateFiniteProgress "Fetching version index "
            :: DownloaderGet (Spec.listing_url (_channel this)) file
            :: map IndicatorUpdate reports ++ [IndicatorDone ""]).
    assert (Hquiet : List.filter is_callback
                       (CreateFiniteProgress "Fetching version index "
                        :: DownloaderGet (Spec.listing_url (_channel this)) file
                        :: map IndicatorUpdate reports ++ [IndicatorDone ""])
                     = []).
    { cbn [List.filter is_callback]. by rewrite List.filter_app, filter_updates. }
    unfold Spec.events. rewrite Hrun. clear Hrun. rewrite run_bind.
    destruct (truthy errormsg) eqn:Herr.
    + destruct (truthy_message errormsg Herr) as (m & -> & Hm).
      rewrite call_run. cbn [files trace].
      destruct (callback Null (Some m) fs1) as [[[]|e] fs2]; cbn [fst snd].
      * exists [Callback Null (Some m); ShellRm (Some file)].
        split; [| split; [exact Hquiet |]].
        -- trace_eq.
        -- right. exists Null, (Some m), (Some file). split; [| by right].
           right. split; [reflexivity |]. by exists m.
      * exists [Callback Null (Some m)].
        split; [| split; [exact Hquiet |]].
        -- trace_eq.
        -- right. exists Null, (Some m), None. split; [| by left].
           right. split; [reflexivity |]. by exists m.
    + rewrite run_bind. unfold FS.readFileSync. cbn [files].
      destruct (fs1 !! file) as [buffer|].
      2:{ exists []. cbn [fst snd trace].
          split; [trace_eq |].
          split; [exact Hquiet | by left]. }
      rewrite run_bind. unfold lift.
      destruct (parse env buffer) as [versions|e].
      2:{ exists []. cbn [fst snd trace].
          split; [trace_eq |].
          split; [exact Hquiet | by left]. }
      rewrite call_run. cbn [files trace].
      destruct (callback (Arr versions) None fs1) as [[[]|e] fs2]; cbn [fst snd].
      * exists [Callback (Arr versions) None; ShellRm (Some file)].
        split; [| split; [exact Hquiet |]].
        -- trace_eq.
        -- right. exists (Arr versions), None, (Some file). split; [| by right].
           left. by exists versions.
      * exists [Callback (Arr versions) None].
        split; [| split; [exact Hquiet |]].
        -- trace_eq.
        -- right. exists (Arr versions), None, None. split; [| by left].
           left. by exists versions.
  - pose proof (fetchVersions_without_file env callback this w name fs0
                  Hc Hname) as Hrun.
    rewrite run_bind, call_run in Hrun. cbn [files trace] in Hrun.
    exists []. unfold Spec.events. rewrite Hrun. clear Hrun.
    destruct (callback Null (Some "Failed to download package index.") fs0)
      as [[[]|e] fs2]; cbn [fst snd].
    + exists [Callback Null (Some "Failed to download package index.");
              ShellRm name].
      split; [| split; [reflexivity |]].
      * trace_eq.
      * right. exists Null, (Some "Failed to download package index."), name.
        split; [| by right]. right. split; [reflexivity |]. by eexists.
    + exists [Callback Null (Some "Failed to download package index.")].
      split; [| split; [reflexivity |]].
      * trace_eq.
      * right. exists Null, (Some "Failed to download package index."), None.
        split; [| by left]. right. split; [reflexivity |]. by eexists.
Qed.

(** X15. [fetchVersions] calls the callback at most once per run, and each
    call carries either a list of versions and no error message, or null and
    a non-empty error message: never both, never neither. *)
Theorem fetchVersions_calls_back_at_most_once (w : World) :
  (length (List.filter is_callback
             (Spec.events (fetchVersions env this callback) w)) <= 1)%nat
  /\ (forall result errormsg,
        Callback result errormsg
          ∈ Spec.events (fetchVersions env this callback) w ->
        (exists versions, result = Arr versions /\ errormsg = None)
        \/ (result = Null /\ exists m, errormsg = Some m /\ m <> "")).
Proof.
  destruct (fetchVersions_shape w)
    as (before & after & -> & Hquiet & Hafter).
  split.
  - rewrite List.filter_app, Hquiet.
    destruct Hafter as [-> | (result & errormsg & path & _ & [-> | ->])];
      simpl; lia.
  - intros result errormsg [Hin | Hin]%elem_of_app.
    + apply list_elem_of_In in Hin.
      assert (Hc : In (Callback result errormsg)
                     (List.filter is_callback before)).
      { apply List.filter_In. by split. }
      rewrite Hquiet in Hc. destruct Hc.
    + destruct Hafter as [-> | (r & e & path & Hgood & [-> | ->])].
      * by apply elem_of_nil in Hin.
      * apply list_elem_of_singleton in Hin. by simplify_eq.
      * apply elem_of_cons in Hin as [Hin | Hin]; [by simplify_eq |].
        apply list_elem_of_singleton in Hin. discriminate Hin.
Qed.

(** X16. [fetchVersions] touches no file but its temporary one: with a
    callback that leaves the file system alone, every other path holds after
    the run what the transfer left in it, whether the run ends normally or
    with an exception. *)
Theorem fetchVersions_touches_only_temporary_file (w : World) (file : string)
    (fs0 fs1 : gmap string string) (reports : list N) (errormsg : option string)
    (path : string) :
  createFileSync env "index.html.XXXXXX" (files w) = (Some file, fs0) ->
  file <> "" ->
  transfer env (BASE_URL +:+ _channel this +:+ "/") file fs0
    = (reports, errormsg, fs1) ->
  (forall result message fs, (callback result message fs).2 = fs) ->
  path <> file ->
  files (fetchVersions env this callback w).2 !! path = fs1 !! path.
Proof.
  intros Hc Hfile Ht Hneutral Hpath.
  pose proof (fetchVersions_run env callback this w file fs0 fs1 reports
                errormsg Hc Hfile Ht) as Hrun.
  rewrite Hrun. clear Hrun. rewrite run_bind.
  assert (Hcall : forall result message w1,
             files w1 = fs1 ->
             files (match call callback result message w1 with
                    | (Normal a, w') => ShellJS.rm (Some file) w'
                    | (Throw e, w') => (Throw e, w')
                    end).2 !! path = fs1 !! path).
  { intros result message w1 Hw1. rewrite call_run.
    pose proof (Hneutral result message (files w1)) as Hfs.
    destruct (callback result message (files w1)) as [[[]|e] fs2];
      simpl in *; subst fs2; rewrite Hw1; [| reflexivity].
    by apply lookup_delete_ne. }
  destruct (truthy errormsg); [by apply Hcall |].
  rewrite run_bind. unfold FS.readFileSync. cbn [files].
  destruct (fs1 !! file) as [buffer|]; [| reflexivity].
  rewrite run_bind. unfold lift.
  destruct (parse env buffer) as [versions|e]; [| reflexivity].
  by apply Hcall.
Qed.

End DepsMore.

Section FindMore.

Import AndroidProjectDeps.

Variable env : Env.

(** X17. [find] takes the last entry of the listing as [ShellJS.ls] returns
    it, in whatever order that is, and the current directory comes first: a
    match there is returned even when the parent directory has matches too.
    A successful [find] prints nothing and changes nothing. *)
Theorem find_takes_last_listed (w : World) :
  let here := ls env "crosswalk-*.*.*.*.zip" (files w) in
  let above := ls env "../crosswalk-*.*.*.*.zip" (files w) in
  (forall z, last here = Some z -> find env w = (Normal (Str z), w))
  /\ (here = [] -> forall z, last above = Some z ->
        find env w = (Normal (Str z), w)).
Proof.
  intros here above.
  assert (Hlast : forall zips z, last zips = Some z -> last_zip zips = Str z).
  { intros zips z Hz. unfold last_zip.
    replace (length zips - 1)%nat with (pred (length zips)) by lia.
    by rewrite <- last_lookup, Hz. }
  unfold find, ShellJS.ls. rewrite run_bind. fold here. split.
  - intros z Hz. rewrite <- (Hlast here z Hz).
    destruct here as [|x l]; [discriminate Hz | reflexivity].
  - intros -> z Hz. cbn [length Nat.eqb]. rewrite run_bind. fold above.
    rewrite <- (Hlast above z Hz).
    destruct above as [|x l]; [discriminate Hz | reflexivity].
Qed.

(** X18. When neither directory has a match, [find] returns [false] after
    printing one diagnostic that names the working directory; it does not
    throw, and in no case does it change the file system. *)
Theorem find_not_found_diagnostic (w : World) :
  files (find env w).2 = files w
  /\ (ls env "crosswalk-*.*.*.*.zip" (files w) = [] ->
      ls env "../crosswalk-*.*.*.*.zip" (files w) = [] ->
      (find env w).1 = Normal (Bool false)
      /\ Spec.events (find env) w
         = [ConsoleError
              ("Crosswalk Zip not found in current or parent directory "
               +:+ pwd env)]).
Proof.
  unfold Spec.events, find, ShellJS.ls. rewrite run_bind. split.
  - destruct (ls env "crosswalk-*.*.*.*.zip" (files w)) as [|x l];
      [| reflexivity].
    cbn [length Nat.eqb]. rewrite run_bind.
    destruct (ls env "../crosswalk-*.*.*.*.zip" (files w)) as [|y l];
      reflexivity.
  - intros -> . cbn [length Nat.eqb]. rewrite run_bind. intros ->.
    cbn [length Nat.eqb]. split; [reflexivity |].
    simpl. by rewrite drop_app_length.
Qed.

End FindMore.

(** Appending to two strings of the same length can be undone. *)
Lemma append_same_length (a b x y : string) :
  String.length a = String.length b -> a +:+ x = b +:+ y -> a = b /\ x = y.
Proof.
  revert b. induction a as [|c a IH]; intros [|d b] Hlen Heq;
    simpl in *; try discriminate.
  - by split.
  - injection Heq as -> Heq. injection Hlen as Hlen.
    destruct (IH b Hlen Heq) as [-> ->]. by split.
Qed.

Lemma length_append (a b : string) :
  String.length (a +:+ b) = (String.length a + String.length b)%nat.
Proof. induction a as [|c a IH]; simpl; [reflexivity | by rewrite IH]. Qed.

(** X20. The archive URL names its channel and version: within the three
    channels, two downloads request the same URL only for the same channel
    and the same version, whatever characters the versions hold. *)
Theorem archive_url_injective (channel1 channel2 version1 version2 : string) :
  channel1 ∈ AndroidProjectDeps.CHANNELS ->
  channel2 ∈ AndroidProjectDeps.CHANNELS ->
  AndroidProjectDeps.BASE_URL +:+ channel1 +:+ "/" +:+ version1 +:+ "/"
    +:+ "crosswalk-" +:+ version1 +:+ ".zip"
  = AndroidProjectDeps.BASE_URL +:+ channel2 +:+ "/" +:+ version2 +:+ "/"
    +:+ "crosswalk-" +:+ version2 +:+ ".zip" ->
  channel1 = channel2 /\ version1 = version2.
Proof.
  intros H1 H2 Heq.
  assert (Hversion :
            version1 +:+ "/" +:+ "crosswalk-" +:+ version1 +:+ ".zip"
            = version2 +:+ "/" +:+ "crosswalk-" +:+ version2 +:+ ".zip" ->
            version1 = version2).
  { intros Hv.
    assert (Hlen : String.length version1 = String.length version2).
    { apply (f_equal String.length) in Hv.
      rewrite !length_append in Hv. simpl in Hv. lia. }
    by destruct (append_same_length version1 version2 _ _ Hlen Hv). }
  unfold AndroidProjectDeps.CHANNELS in *.
  repeat (apply elem_of_cons in H1 as [-> | H1]);
    try (by apply elem_of_nil in H1);
    repeat (apply elem_of_cons in H2 as [-> | H2]);
    try (by apply elem_of_nil in H2);
    simpl in Heq; try discriminate Heq;
    (split; [reflexivity |]); apply Hversion; by simplify_eq.
Qed.

Lemma archive_url_injective_witness :
  "stable" = "stable" /\ "9.38.208.10" = "9.38.208.10".
Proof.
  apply (archive_url_injective "stable" "stable" "9.38.208.10" "9.38.208.10").
  - apply indexOf_found. reflexivity.
  - apply indexOf_found. reflexivity.
  - reflexivity.
Defined.

Lemma new_run (channel : string) (w : World) :
  AndroidProjectDeps.new channel w
  = (if decide (channel ∈ AndroidProjectDeps.CHANNELS)
     then Normal (AndroidProjectDeps.mkDeps channel)
     else Throw InvalidChannelErrorObject, w).
Proof.
  unfold AndroidProjectDeps.new.
  destruct (indexOf AndroidProjectDeps.CHANNELS channel =? -1)%Z eqn:Hi.
  - apply indexOf_absent in Hi. by rewrite decide_False.
  - apply not_true_iff_false in Hi. rewrite indexOf_absent in Hi.
    rewrite decide_True; [reflexivity |].
    by destruct (decide (channel ∈ AndroidProjectDeps.CHANNELS)).
Qed.

(** X19. No transfer is ever requested for an unknown channel: when a
    resolver is constructed and asked to download, any request made goes to
    one of the three channels, at the archive URL of the version asked for;
    for any other channel name the construction throws first and nothing
    happens. *)
Theorem download_only_from_known_channels (env : AndroidProjectDeps.Env)
    (channel version dir : string) (callback : AndroidProjectDeps.callback_t)
    (w : World) (url path : string) :
  DownloaderGet url path
    ∈ Spec.events
        (this ← AndroidProjectDeps.new channel;
         AndroidProjectDeps.download env this version dir callback) w ->
  channel ∈ ["beta"; "canary"; "stable"]
  /\ url = AndroidProjectDeps.BASE_URL +:+ channel +:+ "/" +:+ version +:+ "/"
           +:+ "crosswalk-" +:+ version +:+ ".zip".
Proof.
  unfold Spec.events. rewrite run_bind, new_run.
  unfold AndroidProjectDeps.CHANNELS.
  destruct (decide (channel ∈ ["beta"; "canary"; "stable"])) as [Hin | Hout].
  - intros Hget. split; [exact Hin |].
    destruct (AndroidProjectDeps.transfer env
                (Spec.archive_url channel version)
                (AndroidProjectDeps.join env dir (Spec.archive_file version))
                (files w)) as [[reports reported] fs] eqn:Ht.
    pose proof (download_run env callback (AndroidProjectDeps.mkDeps channel)
                  version dir w reports reported fs Ht) as Hrun.
    rewrite call_run in Hrun. rewrite Hrun in Hget. cbn [snd trace] in Hget.
    rewrite <- app_assoc, drop_app_length in Hget.
    apply elem_of_cons in Hget as [Hget | Hget]; [discriminate Hget |].
    apply elem_of_cons in Hget as [Hget | Hget]; [by injection Hget |].
    apply elem_of_app in Hget as [Hget | Hget].
    + apply elem_of_app in Hget as [Hget | Hget].
      * apply list_elem_of_fmap in Hget as (r & Hr & _). discriminate Hr.
      * apply list_elem_of_singleton in Hget. discriminate Hget.
    + apply list_elem_of_singleton in Hget. discriminate Hget.
  - cbn [snd]. rewrite drop_all. by intros ?%elem_of_nil.
Qed.

Lemma buildGetType_ignores_command_witness :
  CommandParser.buildGetType ["node"; "crosswalk-app"; "help"] Sample.empty_world
  = CommandParser.buildGetType ["node"; "crosswalk-app"; "build"] Sample.empty_world.
Proof.
  destruct (buildGetType_ignores_command
              ["node"; "crosswalk-app"; "build"] Sample.empty_world)
    as [Htoken _].
  apply (Htoken "help"). simpl. lia.
Defined.

Lemma download_success_passes_filename_witness :
  (AndroidProjectDeps.download Sample.online Sample.stable "9.38.208.10"
     "downloads" Sample.quiet_callback Sample.empty_world).1 = Normal tt
  /\ files (AndroidProjectDeps.download Sample.online Sample.stable
              "9.38.208.10" "downloads" Sample.quiet_callback
              Sample.empty_world).2
     = <["downloads/crosswalk-9.38.208.10.zip" := Sample.listing]> ∅
  /\ Spec.events (AndroidProjectDeps.download Sample.online Sample.stable
                    "9.38.208.10" "downloads" Sample.quiet_callback)
       Sample.empty_world
     = [CreateFiniteProgress "Downloading 9.38.208.10 ";
        DownloaderGet
          "https://download.01.org/crosswalk/releases/crosswalk/android/stable/9.38.208.10/crosswalk-9.38.208.10.zip"
          "downloads/crosswalk-9.38.208.10.zip";
        IndicatorUpdate 25; IndicatorUpdate 100; IndicatorDone "";
        Callback (Str "crosswalk-9.38.208.10.zip") None].
Proof.
  exact (download_success_passes_filename
           Sample.online Sample.stable Sample.quiet_callback
           "9.38.208.10" "downloads" Sample.empty_world
           [25%N; 100%N] None
           (<["downloads/crosswalk-9.38.208.10.zip" := Sample.listing]> ∅)
           eq_refl eq_refl).
Defined.

Lemma fetchVersions_success_witness :
  (AndroidProjectDeps.fetchVersions Sample.online Sample.stable
     Sample.quiet_callback Sample.empty_world).1 = Normal tt
  /\ Spec.events (AndroidProjectDeps.fetchVersions Sample.online Sample.stable
                    Sample.quiet_callback) Sample.empty_world
     = [CreateFiniteProgress "Fetching version index ";
        DownloaderGet
          "https://download.01.org/crosswalk/releases/crosswalk/android/stable/"
          "index.html.k3J9xQ";
        IndicatorUpdate 25; IndicatorUpdate 100; IndicatorDone "";
        Callback (Arr ["9.38.208.10"]) None;
        ShellRm (Some "index.html.k3J9xQ")].
Proof.
  apply (fetchVersions_success
           Sample.online Sample.quiet_callback Sample.stable Sample.empty_world
           "index.html.k3J9xQ" (<["index.html.k3J9xQ" := ""]> ∅)
           (<["index.html.k3J9xQ" := Sample.listing]>
              (<["index.html.k3J9xQ" := ""]> ∅))
           [25%N; 100%N] None Sample.listing ["9.38.208.10"]).
  - reflexivity.
  - discriminate.
  - reflexivity.
  - reflexivity.
  - vm_compute. reflexivity.
  - reflexivity.
Defined.

Lemma fetchVersions_unreadable_listing_witness :
  (AndroidProjectDeps.fetchVersions vanishing Sample.stable
     Sample.quiet_callback Sample.empty_world).1
  = Throw (Error "ENOENT: no such file or directory, open 'index.html.k3J9xQ'")
  /\ Spec.events (AndroidProjectDeps.fetchVersions vanishing Sample.stable
                    Sample.quiet_callback) Sample.empty_world
     = [CreateFiniteProgress "Fetching version index ";
        DownloaderGet
          "https://download.01.org/crosswalk/releases/crosswalk/android/stable/"
          "index.html.k3J9xQ";
        IndicatorUpdate 100; IndicatorDone ""].
Proof.
  apply (fetchVersions_unreadable_listing
           vanishing Sample.stable Sample.quiet_callback Sample.empty_world
           "index.html.k3J9xQ" (<["index.html.k3J9xQ" := ""]> ∅)
           (delete "index.html.k3J9xQ" (<["index.html.k3J9xQ" := ""]> ∅))
           [100%N] None).
  - reflexivity.
  - discriminate.
  - reflexivity.
  - reflexivity.
  - vm_compute. reflexivity.
Defined.

Lemma fetchVersions_parser_throws_witness :
  (AndroidProjectDeps.fetchVersions
     (Sample.env None Sample.listing (Throw (Error "unexpected token")))
     Sample.stable Sample.quiet_callback Sample.empty_world).1
  = Throw (Error "unexpected token")
  /\ files (AndroidProjectDeps.fetchVersions
              (Sample.env None Sample.listing (Throw (Error "unexpected token")))
              Sample.stable Sample.quiet_callback Sample.empty_world).2
       !! "index.html.k3J9xQ" = Some Sample.listing
  /\ Spec.events
       (AndroidProjectDeps.fetchVersions
          (Sample.env None Sample.listing (Throw (Error "unexpected token")))
          Sample.stable Sample.quiet_callback) Sample.empty_world
     = [CreateFiniteProgress "Fetching version index ";
        DownloaderGet
          "https://download.01.org/crosswalk/releases/crosswalk/android/stable/"
          "index.html.k3J9xQ";
        IndicatorUpdate 25; IndicatorUpdate 100; IndicatorDone ""].
Proof.
  apply (fetchVersions_parser_throws
           (Sample.env None Sample.listing (Throw (Error "unexpected token")))
           Sample.stable Sample.quiet_callback Sample.empty_world
           "index.html.k3J9xQ" (<["index.html.k3J9xQ" := ""]> ∅)
           (<["index.html.k3J9xQ" := Sample.listing]>
              (<["index.html.k3J9xQ" := ""]> ∅))
           [25%N; 100%N] None Sample.listing (Error "unexpected token")).
  - reflexivity.
  - discriminate.
  - reflexivity.
  - reflexivity.
  - vm_compute. reflexivity.
  - reflexivity.
Defined.

Lemma fetchVersions_touches_only_temporary_file_witness :
  files (AndroidProjectDeps.fetchVersions Sample.online Sample.stable
           Sample.quiet_callback
           (mkWorld (<["notes.txt" := "keep"]> ∅) [])).2 !! "notes.txt"
  = Some "keep".
Proof.
  etrans.
  - apply (fetchVersions_touches_only_temporary_file
             Sample.online Sample.stable Sample.quiet_callback
             (mkWorld (<["notes.txt" := "keep"]> ∅) [])
             "index.html.k3J9xQ"
             (<["index.html.k3J9xQ" := ""]> (<["notes.txt" := "keep"]> ∅))
             (<["index.html.k3J9xQ" := Sample.listing]>
                (<["index.html.k3J9xQ" := ""]> (<["notes.txt" := "keep"]> ∅)))
             [25%N; 100%N] None "notes.txt").
    + reflexivity.
    + discriminate.
    + reflexivity.
    + reflexivity.
    + discriminate.
  - vm_compute. reflexivity.
Defined.

Lemma find_takes_last_listed_witness :
  AndroidProjectDeps.find Sample.online Sample.empty_world
  = (Normal (Str "../crosswalk-9.38.208.10.zip"), Sample.empty_world).
Proof.
  destruct (find_takes_last_listed Sample.online Sample.empty_world)
    as [_ Habove].
  apply Habove; reflexivity.
Defined.

Lemma find_not_found_diagnostic_witness :
  (AndroidProjectDeps.find no_archives Sample.empty_world).1
  = Normal (Bool false)
  /\ Spec.events (AndroidProjectDeps.find no_archives) Sample.empty_world
     = [ConsoleError
          "Crosswalk Zip not found in current or parent directory /home/user/app"].
Proof.
  destruct (find_not_found_diagnostic no_archives Sample.empty_world)
    as [_ Hnone].
  apply Hnone; reflexivity.
Defined.

Lemma download_only_from_known_channels_witness :
  "stable" ∈ ["beta"; "canary"; "stable"]
  /\ "https://download.01.org/crosswalk/releases/crosswalk/android/stable/9.38.208.10/crosswalk-9.38.208.10.zip"
     = AndroidProjectDeps.BASE_URL +:+ "stable" +:+ "/" +:+ "9.38.208.10"
       +:+ "/" +:+ "crosswalk-" +:+ "9.38.208.10" +:+ ".zip".
Proof.
  apply (download_only_from_known_channels
           Sample.online "stable" "9.38.208.10" "downloads"
           Sample.quiet_callback Sample.empty_world
           "https://download.01.org/crosswalk/releases/crosswalk/android/stable/9.38.208.10/crosswalk-9.38.208.10.zip"
           "downloads/crosswalk-9.38.208.10.zip").
  apply list_elem_of_In. vm_compute. auto 10.
Defined.
